(** * Spoiler detection notebook: a shallow embedding of [code.ipynb]

    The notebook is a linear script: join and filter (cells 2 to 4),
    feature extraction over a worker pool and min-max scaling (cell 5), a
    stratified split (cell 7), TF-IDF vectorisation (cell 8) and an MLP
    classifier (cell 9, which is not embedded: nothing below depends on it).
    Each cell is embedded as a function on lists of rows; a call that can
    raise returns an [option].

    The notebook's own code is embedded as it is written.  The library
    calls are embedded by what the libraries compute: [pd.merge],
    [MinMaxScaler], [train_test_split] and the transform of
    [TfidfVectorizer] follow pandas and scikit-learn.  The spaCy pipeline,
    the date parser, the random generator and the fit of the vectoriser are
    interfaces ([Spacy], [Pandas], [RandomState], [TfidfLibrary]); the
    order in which the pool finishes its tasks is an argument
    ([completion_order]).  Writing a table to a CSV or pickle file and
    reading it back is taken to return the table. *)

From Stdlib Require Import ZArith QArith Qminmax Qround List String Ascii Bool Lia Lqa
  Permutation Floats DecimalString.
From stdpp Require Import base option list gmap strings.
Import ListNotations.

Set Warnings "-inexact-float".
#[local] Open Scope Z_scope.

(** * Stage 1: join and filter (cells 2 to 4) *)

(** A row of [IMDB_reviews.json]; [D] is the type of the date column:
    [string] as loaded, a timestamp after [pd.to_datetime]. *)
Module Review.
Record t (D : Type) := mk
  { movie_id : string;
    review_date : D;
    review_summary : string;
    review_text : string;
    is_spoiler : bool }.
Arguments mk {D}.
Arguments movie_id {D}.
Arguments review_date {D}.
Arguments review_summary {D}.
Arguments review_text {D}.
Arguments is_spoiler {D}.
End Review.

(** A row of [IMDB_movie_details.json] (the columns the script never reads
    are left out). *)
Module Movie.
Record t (D : Type) := mk
  { movie_id : string;
    release_date : D }.
Arguments mk {D}.
Arguments movie_id {D}.
Arguments release_date {D}.
End Movie.

(** A row of [merged_df]: the columns of both frames, keyed by [movie_id]. *)
Module Merged.
Record t := mk
  { movie_id : string;
    review_date : Z;
    review_summary : string;
    review_text : string;
    is_spoiler : bool;
    release_date : Z }.
End Merged.

(** A row of [subset_df], written to and read back from the CSV file. *)
Module Subset.
Record t := mk
  { days_since_release : Z;
    review_combined : string;
    is_spoiler : bool }.
End Subset.

(** [mask = (dataframe['release_date'].str.len() == 10)];
    [return dataframe.loc[mask]].  Characters are [Ascii.ascii]. *)
Definition filter_valid_release_dates
    (dataframe : list (Movie.t string)) : list (Movie.t string) :=
  List.filter (fun row => (String.length (Movie.release_date row) =? 10)%nat)
    dataframe.

(** [pd.merge(df_reviews, df_movies, on='movie_id')], with the default
    [how='inner']: one output row per pair of a left and a right row with
    equal keys, in the order of the left rows. *)
Definition join_row (r : Review.t Z) (m : Movie.t Z) : Merged.t :=
  Merged.mk (Review.movie_id r) (Review.review_date r)
    (Review.review_summary r) (Review.review_text r) (Review.is_spoiler r)
    (Movie.release_date m).

Definition matches (r : Review.t Z) (df_movies : list (Movie.t Z))
    : list (Movie.t Z) :=
  List.filter (fun m => String.eqb (Review.movie_id r) (Movie.movie_id m))
    df_movies.

Definition merge (df_reviews : list (Review.t Z))
    (df_movies : list (Movie.t Z)) : list Merged.t :=
  flat_map (fun r => map (join_row r) (matches r df_movies)) df_reviews.

(** Timestamps are nanoseconds; [.dt.days] is the floor of the difference
    in days ([Z.div] rounds down, as [Timedelta.days] does). *)
Definition ns_per_day : Z := 86400 * 1000000000.

Definition dt_days (delta : Z) : Z := delta / ns_per_day.

Definition subset_row (row : Merged.t) : Subset.t :=
  Subset.mk
    (dt_days (Merged.review_date row - Merged.release_date row))
    (Merged.review_summary row ++ " " ++ Merged.review_text row)%string
    (Merged.is_spoiler row).

(** [pd.to_datetime] parses a column of strings as a whole.  pandas
    guesses a format from the first cell ([guess_datetime_format]); when
    it finds one, every cell is parsed with exactly that format
    ([array_strptime] with [exact=True]), so that a cell written in
    another format raises even if it would parse on its own; when it finds
    none, every cell is parsed on its own ([dateutil]), which is also what
    pandas did for every column before version 2.  The guess and the two
    parsers are pandas' own. *)
Class Pandas := {
  format : Type;
  guess_datetime_format : string -> option format;
  array_strptime : format -> string -> option Z;
  dateutil_parse : string -> option Z }.

Section JoinFilter.
Context {pd : Pandas}.

(** The format of a column: the one guessed from its first cell. *)
Definition column_format (column : list string) : option format :=
  first ← head column; guess_datetime_format first.

(** The timestamp [pd.to_datetime(column)] holds for [cell] of [column];
    [None] when pandas raises on it. *)
Definition to_datetime (column : list string) (cell : string) : option Z :=
  match column_format column with
  | Some fmt => array_strptime fmt cell
  | None => dateutil_parse cell
  end.

Definition review_to_datetime (review_date : list string)
    (r : Review.t string) : option (Review.t Z) :=
  d ← to_datetime review_date (Review.review_date r);
  Some (Review.mk (Review.movie_id r) d (Review.review_summary r)
          (Review.review_text r) (Review.is_spoiler r)).

Definition movie_to_datetime (release_date : list string)
    (m : Movie.t string) : option (Movie.t Z) :=
  d ← to_datetime release_date (Movie.release_date m);
  Some (Movie.mk (Movie.movie_id m) d).

(** Cells 3 and 4 up to [merged_df]; a date that is not parsed aborts the
    run. *)
Definition merged_df (df_reviews : list (Review.t string))
    (df_movies : list (Movie.t string)) : option (list Merged.t) :=
  let df_movies := filter_valid_release_dates df_movies in
  df_reviews ←
    mapM (review_to_datetime (map Review.review_date df_reviews)) df_reviews;
  df_movies ←
    mapM (movie_to_datetime (map Movie.release_date df_movies)) df_movies;
  Some (merge df_reviews df_movies).


(** The dates of the reviews and of the movies that pass the filter are all
    parsed, each as a cell of its column: nothing else can raise in cells
    3 and 4 before the merge. *)
Definition dates_parse (df_reviews : list (Review.t string))
    (df_movies : list (Movie.t string)) : Prop :=
  (forall r, In r df_reviews ->
     is_Some (to_datetime (map Review.review_date df_reviews)
                (Review.review_date r)))
  /\ (forall m, In m (filter_valid_release_dates df_movies) ->
       is_Some (to_datetime
                  (map Movie.release_date
                     (filter_valid_release_dates df_movies))
                  (Movie.release_date m))).

End JoinFilter.

(** * Stage 2: feature extraction (cell 5, steps 2 to 4) *)

(** What the script reads off a spaCy token.  [pos] and [ent_type] are the
    integer symbol ids that [doc.count_by] tallies. *)
Module Token.
Record t := mk
  { lemma_ : string;
    is_stop : bool;
    is_punct : bool;
    pos : Z;
    ent_type : Z }.
End Token.

Definition Doc := list Token.t.

(** [spacy.attrs.POS] and [spacy.attrs.ENT_TYPE]. *)
Inductive attr_id := POS | ENT_TYPE.

Definition get_token_attr (token : Token.t) (a : attr_id) : Z :=
  match a with
  | POS => Token.pos token
  | ENT_TYPE => Token.ent_type token
  end.

(** The loaded pipeline [nlp = spacy.load('en_core_web_sm')] and the seven
    ids of [spacy.symbols] the script looks up. *)
Class Spacy := {
  nlp : string -> Doc;
  NOUN : Z; VERB : Z; ADJ : Z;
  PERSON : Z; ORG : Z; GPE : Z; DATE : Z }.

(** [doc.count_by(attr)]: a dict from attribute value to the number of
    tokens of the doc that carry it ([counts[v] += 1] for every token). *)
Definition count_by (doc : Doc) (a : attr_id) : gmap Z Z :=
  foldl (fun (counts : gmap Z Z) token =>
           let v := get_token_attr token a in
           <[v := default 0 (counts !! v) + 1]> counts)
    ∅ doc.

(** [d.get(key, dflt)]. *)
Definition get (d : gmap Z Z) (key dflt : Z) : Z := default dflt (d !! key).

(** A Python value of the feature list: an [int] or a [str]. *)
Inductive pyval := PInt (n : Z) | PStr (s : string).

(** A dict literal keeps insertion order: keys with their values. *)
Definition keys (d : list (string * Z)) : list string := map fst d.

Definition getitem (d : list (string * Z)) (key : string) : option Z :=
  snd <$> List.find (fun kv => String.eqb (fst kv) key) d.

(** The tokens that stay in the cleaned text. *)
Definition keep (token : Token.t) : bool :=
  negb (Token.is_stop token) && negb (Token.is_punct token).

(** The number of tokens of [doc] that satisfy [p], as a Python [int], and
    the cleaned token string of a parsed document. *)
Definition count_tokens (p : Token.t -> bool) (doc : Doc) : Z :=
  Z.of_nat (length (List.filter p doc)).

Definition cleaned (doc : Doc) : string :=
  String.concat " " (map Token.lemma_ (List.filter keep doc)).

Section Extractor.
Context {sp : Spacy}.

Definition preprocess (text : string) (days : Z) : list pyval :=
  let doc := nlp text in
  let pos_counts := count_by doc POS in
  let entity_counts := count_by doc ENT_TYPE in
  let processed_text := map Token.lemma_ (List.filter keep doc) in
  let tokens := String.concat " " processed_text in
  let pos_ner_counts :=
    [ ("NOUN_count", get pos_counts NOUN 0);
      ("VERB_count", get pos_counts VERB 0);
      ("ADJ_count", get pos_counts ADJ 0);
      ("PERSON_count", get entity_counts PERSON 0);
      ("ORG_count", get entity_counts ORG 0);
      ("GPE_count", get entity_counts GPE 0);
      ("DATE_count", get entity_counts DATE 0) ]%string in
  let features := [PInt days] in
  let features :=
    foldl (fun features i =>
             match getitem pos_ner_counts i with
             | Some n => features ++ [PInt n]
             | None => features
             end)
      features (keys pos_ner_counts) in
  features ++ [PStr tokens].

(** [executor.submit(preprocess, text, days) for text, days in zip(...)]:
    the value each future holds once it is done, in submission order. *)
Definition future_results (texts : list string) (days_since_review : list Z)
    : list (list pyval) :=
  map (fun '(text, days) => preprocess text days)
    (zip texts days_since_review).

End Extractor.

(** [concurrent.futures.as_completed(fs)] yields every future once, in the
    order the pool finishes them.  The order is the scheduler's choice:
    [completion_order] lists the submission indices as they finish. *)
Definition as_completed {A} (completion_order : list nat) (fs : list A)
    : list A :=
  omap (fun i => fs !! i) completion_order.

(** A completion order of [n] tasks lists each index below [n] once. *)
Definition is_completion_order (completion_order : list nat) (n : nat) : Prop :=
  Permutation completion_order (seq 0 n).

(** * Stage 3: the feature table and min-max scaling (cell 5, step 4.5) *)

(** The eight numeric columns of the feature table, in the order of the
    [columns=[...]] list; [N] is [Z] before scaling and [Q] after. *)
Module Numeric.
Record t (N : Type) := mk
  { Days : N;
    NOUN_count : N;
    VERB_count : N;
    ADJ_count : N;
    PERSON_count : N;
    ORG_count : N;
    GPE_count : N;
    DATE_count : N }.
Arguments mk {N}.
Arguments Days {N}.
Arguments NOUN_count {N}.
Arguments VERB_count {N}.
Arguments ADJ_count {N}.
Arguments PERSON_count {N}.
Arguments ORG_count {N}.
Arguments GPE_count {N}.
Arguments DATE_count {N}.

(** A column selects its cell in a row, whatever the cells hold. *)
Definition column := forall N : Type, t N -> N.

Definition columns : list column :=
  [ @Days; @NOUN_count; @VERB_count; @ADJ_count;
    @PERSON_count; @ORG_count; @GPE_count; @DATE_count ].

(** One value per column. *)
Definition tabulate {A} (f : column -> A) : t A :=
  mk (f (@Days)) (f (@NOUN_count)) (f (@VERB_count)) (f (@ADJ_count))
     (f (@PERSON_count)) (f (@ORG_count)) (f (@GPE_count)) (f (@DATE_count)).

Definition map {A B} (f : A -> B) (x : t A) : t B :=
  tabulate (fun c => f (c A x)).

Definition zip_with {A B C} (f : A -> B -> C) (x : t A) (y : t B) : t C :=
  tabulate (fun c => f (c A x) (c B y)).
End Numeric.

(** A row of the feature table [df]. *)
Module Row.
Record t (N : Type) := mk
  { numeric : Numeric.t N;
    tokens : string }.
Arguments mk {N}.
Arguments numeric {N}.
Arguments tokens {N}.
End Row.

(** [pd.DataFrame(processed_texts, columns=[...nine names...])]: every
    feature list becomes a row; a list that does not have the nine cells
    (eight integers and the token string) has no row here. *)
Definition DataFrame_row (features : list pyval) : option (Row.t Z) :=
  match features with
  | [ PInt d; PInt n; PInt v; PInt a; PInt p; PInt o; PInt g; PInt dt;
      PStr toks ] =>
      Some (Row.mk (Numeric.mk d n v a p o g dt) toks)
  | _ => None
  end.

Definition DataFrame (data : list (list pyval)) : option (list (Row.t Z)) :=
  mapM DataFrame_row data.

(** The row of the feature table that one record yields. *)
Definition feature_row `{Spacy} (text : string) (days : Z) : Row.t Z :=
  let doc := nlp text in
  Row.mk
    (Numeric.mk days
       (count_tokens (fun t => Token.pos t =? NOUN) doc)
       (count_tokens (fun t => Token.pos t =? VERB) doc)
       (count_tokens (fun t => Token.pos t =? ADJ) doc)
       (count_tokens (fun t => Token.ent_type t =? PERSON) doc)
       (count_tokens (fun t => Token.ent_type t =? ORG) doc)
       (count_tokens (fun t => Token.ent_type t =? GPE) doc)
       (count_tokens (fun t => Token.ent_type t =? DATE) doc))
    (cleaned doc).

(** [sklearn.preprocessing.MinMaxScaler()] with the default
    [feature_range=(0, 1)], read in exact arithmetic on [Q]: the shape of
    the table, the order of its rows and the treatment of a constant column
    are stated on this reading.  The numbers the scaler computes are
    binary64 numbers; they are embedded in [Binary64] below, and what is
    said of the scaled values themselves is said there. *)
Module MinMaxScaler.

#[local] Open Scope Q_scope.

(** [np.finfo(np.float64).eps]. *)
Definition eps : Q := 1 # (2 ^ 52).

(** [_handle_zeros_in_scale]: a range below [10 * eps] is replaced by 1, so
    that a constant column is not divided by zero. *)
Definition handle_zeros_in_scale (scale : Q) : Q :=
  if Qlt_le_dec scale (10 * eps) then 1 else scale.

Definition nanmin (col : list Q) : Q :=
  match col with
  | [] => 0
  | x :: xs => fold_left Qmin xs x
  end.

Definition nanmax (col : list Q) : Q :=
  match col with
  | [] => 0
  | x :: xs => fold_left Qmax xs x
  end.

(** The fitted attributes of one column. *)
Record params := mk_params
  { data_min_ : Q;
    data_max_ : Q;
    data_range_ : Q;
    scale_ : Q;
    min_ : Q }.

Definition feature_range : Q * Q := (0, 1).

(** [partial_fit] on one column. *)
Definition fit_column (col : list Q) : params :=
  let data_min := nanmin col in
  let data_max := nanmax col in
  let data_range := data_max - data_min in
  let scale := (snd feature_range - fst feature_range)
               / handle_zeros_in_scale data_range in
  mk_params data_min data_max data_range scale
    (fst feature_range - data_min * scale).

(** [transform] on one cell: [X *= scale_; X += min_]. *)
Definition transform_cell (p : params) (x : Q) : Q :=
  x * scale_ p + min_ p.

(** The scaler of the whole table: one [params] per column.  Fitting an
    empty table raises. *)
Definition fit (X : list (Numeric.t Q)) : option (Numeric.t params) :=
  match X with
  | [] => None
  | _ => Some (Numeric.tabulate (fun c => fit_column (List.map (c Q) X)))
  end.

Definition transform (s : Numeric.t params) (X : list (Numeric.t Q))
    : list (Numeric.t Q) :=
  List.map (Numeric.zip_with transform_cell s) X.

Definition fit_transform (X : list (Numeric.t Q))
    : option (list (Numeric.t Q)) :=
  s ← fit X; Some (transform s X).

End MinMaxScaler.

(** [df[[...8 columns...]]] as floating point input of the scaler. *)
Definition numeric_columns (df : list (Row.t Z)) : list (Numeric.t Q) :=
  map (fun row => Numeric.map inject_Z (Row.numeric row)) df.

(** Column [c] of the table as the scaler reads it. *)
Definition float_column (c : Numeric.column) (df : list (Row.t Z)) : list Q :=
  map (fun row => inject_Z (c Z (Row.numeric row))) df.



Definition constant_column (c : Numeric.column) (df : list (Row.t Z)) : Prop :=
  forall row row', In row df -> In row' df ->
                   c Z (Row.numeric row) = c Z (Row.numeric row').

(** [df[[...8 columns...]] = normalized_counts]: the cells of row [i] are
    replaced by row [i] of the array; [tokens] stays. *)
Definition assign_columns (df : list (Row.t Z))
    (normalized_counts : list (Numeric.t Q)) : list (Row.t Q) :=
  zip_with (fun row n => Row.mk n (Row.tokens row)) df normalized_counts.

(** Cell 5 from the feature lists on: build the table, scale it. *)
Definition scaled_table (processed_texts : list (list pyval))
    : option (list (Row.t Q)) :=
  df ← DataFrame processed_texts;
  normalized_counts ← MinMaxScaler.fit_transform (numeric_columns df);
  Some (assign_columns df normalized_counts).

(** Binary64 numbers as the kernel's primitive floats, with the
    conversions numpy and Python apply to them. *)
Module Float64.

(** An integer as a float (exact below [2^53]). *)
Definition of_Z (z : Z) : float :=
  if z <? 0 then PrimFloat.opp (PrimFloat.of_uint63 (Uint63.of_Z (- z)))
  else PrimFloat.of_uint63 (Uint63.of_Z z).

(** The magnitude [m * 2^e] cut to an integer, and whether nothing was cut. *)
Definition magnitude (m : positive) (e : Z) : Z * bool :=
  if 0 <=? e then (Z.pos m * 2 ^ e, true)
  else (Z.pos m / 2 ^ (- e), Z.pos m mod 2 ^ (- e) =? 0).

(** [math.floor], [math.ceil] and [int()] of a finite float. *)
Definition floor_Z (x : float) : option Z :=
  match Prim2SF x with
  | S754_zero _ => Some 0
  | S754_finite s m e =>
      let '(n, exact) := magnitude m e in
      Some (if s then (if exact then - n else - n - 1) else n)
  | _ => None
  end.

Definition ceil_Z (x : float) : option Z :=
  match Prim2SF x with
  | S754_zero _ => Some 0
  | S754_finite s m e =>
      let '(n, exact) := magnitude m e in
      Some (if s then - n else (if exact then n else n + 1))
  | _ => None
  end.

Definition trunc_Z (x : float) : option Z :=
  match Prim2SF x with
  | S754_zero _ => Some 0
  | S754_finite s m e =>
      let '(n, _) := magnitude m e in
      Some (if s then - n else n)
  | _ => None
  end.

(** [np.floor]: a float again; infinities and NaN are left as they are. *)
Definition floor (x : float) : float :=
  match floor_Z x with
  | Some n => of_Z n
  | None => x
  end.

(** [floored.astype(int)] and [int(x)] on the finite values met here. *)
Definition to_int (x : float) : Z := default 0 (trunc_Z x).

Definition sum (l : list float) : float := fold_left PrimFloat.add l 0%float.


End Float64.

(** [MinMaxScaler] as the program runs it.  [check_array] converts the
    integer cells to float64, and every difference, quotient, product and
    sum of [partial_fit] and [transform] is a binary64 operation, rounded
    to nearest; the defaults are [feature_range=(0, 1)] and [clip=False]. *)
Module Binary64.

#[local] Open Scope float_scope.

(** [np.finfo(np.float64).eps]. *)
Definition eps : float := 0x1p-52.

(** [_handle_zeros_in_scale] on an array: [scale[scale < 10 * eps] = 1.0]. *)
Definition handle_zeros_in_scale (scale : float) : float :=
  if scale <? 10 * eps then 1 else scale.

(** [np.fmin] and [np.fmax]: a NaN gives way to the other operand. *)
Definition fmin (x y : float) : float :=
  if is_nan x then y else if y <? x then y else x.

Definition fmax (x y : float) : float :=
  if is_nan x then y else if x <? y then y else x.

(** [np.nanmin(X, axis=0)] and [np.nanmax(X, axis=0)] on one column. *)
Definition nanmin (col : list float) : float :=
  match col with
  | [] => nan
  | x :: xs => fold_left fmin xs x
  end.

Definition nanmax (col : list float) : float :=
  match col with
  | [] => nan
  | x :: xs => fold_left fmax xs x
  end.

(** The fitted attributes of one column. *)
Record params := mk_params
  { data_min_ : float;
    data_max_ : float;
    data_range_ : float;
    scale_ : float;
    min_ : float }.

Definition feature_range : float * float := (0, 1).

(** [partial_fit] on one column. *)
Definition fit_column (col : list float) : params :=
  let data_min := nanmin col in
  let data_max := nanmax col in
  let data_range := data_max - data_min in
  let scale := (snd feature_range - fst feature_range)
               / handle_zeros_in_scale data_range in
  mk_params data_min data_max data_range scale
    (fst feature_range - data_min * scale).

(** [transform] on one cell: [X *= self.scale_; X += self.min_]. *)
Definition transform_cell (p : params) (x : float) : float :=
  x * scale_ p + min_ p.

(** The scaler of the whole table: one [params] per column.  Fitting a
    table without rows raises. *)
Definition fit (X : list (Numeric.t float)) : option (Numeric.t params) :=
  match X with
  | [] => None
  | _ => Some (Numeric.tabulate (fun c => fit_column (List.map (c float) X)))
  end.

Definition transform (s : Numeric.t params) (X : list (Numeric.t float))
    : list (Numeric.t float) :=
  List.map (Numeric.zip_with transform_cell s) X.

Definition fit_transform (X : list (Numeric.t float))
    : option (list (Numeric.t float)) :=
  s ← fit X; Some (transform s X).

End Binary64.






(** * Stage 4a: the stratified split (cell 7) *)

(** numpy's [RandomState]: the generator is threaded through the calls that
    draw from it.  [permutation l] is [rng.permutation] of an array (of
    [np.arange(n)] when called on an integer), [choice a size] is
    [rng.choice(a, size=size, replace=False)]. *)
Class RandomState := {
  rng : Type;
  check_random_state : Z -> rng;
  permutation : list nat -> rng -> list nat * rng;
  choice : list nat -> nat -> rng -> list nat * rng }.

(** The generator returns permutations: [rng.permutation] reorders its
    argument and nothing else. *)
Definition permutes (rs : RandomState) : Prop :=
  forall l s, Permutation (fst (permutation l s)) l.

(** Computations that draw random numbers. *)
Definition Rand `{RandomState} (A : Type) : Type := rng -> A * rng.

Definition ret `{RandomState} {A} (a : A) : Rand A := fun s => (a, s).

Definition bind `{RandomState} {A B} (m : Rand A) (k : A -> Rand B) : Rand B :=
  fun s => let '(a, s') := m s in k a s'.

Notation "x <~ m ;; k" := (bind m (fun x => k))
  (at level 100, m at next level, right associativity).

(** [_validate_shuffle_split(n_samples, test_size, train_size=None)] for a
    float [test_size]: [n_test = ceil(test_size * n_samples)],
    [n_train = n_samples - n_test]; an empty train set raises. *)
Definition validate_shuffle_split (n_samples : nat) (test_size : float)
    : option (Z * Z) :=
  n_test ← Float64.ceil_Z (test_size * Float64.of_Z (Z.of_nat n_samples))%float;
  let n_train := Z.of_nat n_samples - n_test in
  if n_train =? 0 then None else Some (n_train, n_test).

(** The number of labels [c] in [y]. *)
Definition count_label (c : bool) (y : list bool) : nat :=
  length (List.filter (Bool.eqb c) y).

(** [np.unique(y)] of a boolean array: the classes present, [False] first. *)
Definition unique (y : list bool) : list bool :=
  List.filter (fun c => existsb (Bool.eqb c) y) [false; true].

(** The positions of class [c] in [y], ascending: one block of
    [np.split(np.argsort(y_indices, kind="mergesort"), ...)]. *)
Definition class_indices (y : list bool) (c : bool) : list nat :=
  List.map fst (List.filter (fun ib => Bool.eqb (snd ib) c)
                  (zip (seq 0 (length y)) y)).

(** [a.take(indices, mode="clip")]. *)
Definition take_clip (a : list nat) (indices : list nat) : list nat :=
  List.map (fun j => nth (Nat.min j (length a - 1)) a 0%nat) indices.

(** [np.sort(np.unique(remainder))[::-1]]. *)
Fixpoint insert_desc (v : float) (l : list float) : list float :=
  match l with
  | [] => [v]
  | x :: xs =>
      if (x <? v)%float then v :: l
      else if (x =? v)%float then l
      else x :: insert_desc v xs
  end.

Definition sort_unique_desc (l : list float) : list float :=
  fold_right insert_desc [] l.

(** [np.where(remainder == value)]. *)
Definition where_eq (remainder : list float) (value : float) : list nat :=
  List.map fst (List.filter (fun ix => (snd ix =? value)%float)
                  (zip (seq 0 (length remainder)) remainder)).

(** [floored[inds] += 1]. *)
Definition add_one_at (inds : list nat) (floored : list float) : list float :=
  imap (fun j x => if bool_decide (j ∈ inds) then (x + 1)%float else x) floored.

Section Split.
Context {rs : RandomState}.

(** The loop of [_approximate_mode] over the distinct remainders. *)
Fixpoint add_by_remainder (remainder : list float) (values : list float)
    (floored : list float) (need_to_add : Z) : Rand (list float) :=
  match values with
  | [] => ret floored
  | value :: values =>
      let inds := where_eq remainder value in
      let add_now := Z.min (Z.of_nat (length inds)) need_to_add in
      inds <~ choice inds (Z.to_nat add_now) ;;
      let floored := add_one_at inds floored in
      let need_to_add := need_to_add - add_now in
      if need_to_add =? 0 then ret floored
      else add_by_remainder remainder values floored need_to_add
  end.

(** [_approximate_mode(class_counts, n_draws, rng)]. *)
Definition approximate_mode (class_counts : list Z) (n_draws : Z)
    : Rand (list Z) :=
  let total := Float64.of_Z (fold_left Z.add class_counts 0) in
  let continuous :=
    List.map (fun c => (Float64.of_Z c / total * Float64.of_Z n_draws)%float)
      class_counts in
  let floored := List.map Float64.floor continuous in
  let need_to_add :=
    Float64.to_int (Float64.of_Z n_draws - Float64.sum floored)%float in
  floored <~
    (if 0 <? need_to_add then
       let remainder := zip_with PrimFloat.sub continuous floored in
       let values := sort_unique_desc remainder in
       add_by_remainder remainder values floored need_to_add
     else ret floored) ;;
  ret (List.map Float64.to_int floored).

(** The per-class loop of [StratifiedShuffleSplit._iter_indices]. *)
Fixpoint draw_classes (blocks : list (list nat * Z * Z))
    : Rand (list nat * list nat) :=
  match blocks with
  | [] => ret ([], [])
  | (indices, n, t) :: blocks =>
      p <~ permutation (seq 0 (length indices)) ;;
      let perm_indices_class_i := take_clip indices p in
      rest <~ draw_classes blocks ;;
      ret (take (Z.to_nat n) perm_indices_class_i ++ fst rest,
           take (Z.to_nat t) (drop (Z.to_nat n) perm_indices_class_i)
             ++ snd rest)
  end.

(** [StratifiedShuffleSplit(test_size=n_test, train_size=n_train,
    random_state=...).split(X, y)], first split: the checks that raise,
    then the train and test positions. *)
Definition stratified_shuffle_split (y : list bool) (n_train n_test : Z)
    (random_state : Z) : option (list nat * list nat) :=
  let classes := unique y in
  let n_classes := Z.of_nat (length classes) in
  let indices := List.map (class_indices y) classes in
  let class_counts := List.map (fun l => Z.of_nat (length l)) indices in
  if existsb (fun c => c <? 2) class_counts then None
  else if n_train <? n_classes then None
  else if n_test <? n_classes then None
  else
    Some (fst ((n_i <~ approximate_mode class_counts n_train ;;
                let class_counts_remaining :=
                  zip_with Z.sub class_counts n_i in
                t_i <~ approximate_mode class_counts_remaining n_test ;;
                drawn <~ draw_classes (zip (zip indices n_i) t_i) ;;
                train <~ permutation (fst drawn) ;;
                test <~ permutation (snd drawn) ;;
                ret (train, test))
               (check_random_state random_state))).

(** [_safe_indexing(a, indices)]; a position outside [a] raises. *)
Definition safe_indexing {A} (a : list A) (indices : list nat)
    : option (list A) :=
  mapM (fun i => a !! i) indices.

(** [train_test_split(X, y, test_size=..., random_state=...,
    stratify=y)]: [(X_train, X_test, y_train, y_test)]. *)
Definition train_test_split {A} (X : list A) (y : list bool)
    (test_size : float) (random_state : Z)
    : option (list A * list A * list bool * list bool) :=
  if negb (length X =? length y)%nat then None
  else
    '(n_train, n_test) ← validate_shuffle_split (length X) test_size;
    '(train, test) ← stratified_shuffle_split y n_train n_test random_state;
    X_train ← safe_indexing X train;
    X_test ← safe_indexing X test;
    y_train ← safe_indexing y train;
    y_test ← safe_indexing y test;
    Some (X_train, X_test, y_train, y_test).

(** Cell 7. *)
Definition cell7 {A} (processed_texts : list A) (labels : list bool)
    : option (list A * list A * list bool * list bool) :=
  let X := processed_texts in
  let y := labels in
  train_test_split X y 0.2%float 42.

End Split.

(** * Stage 4b: TF-IDF vectorisation (cell 8) *)

(** The default analyzer of [TfidfVectorizer] on ASCII text: lower-case the
    document, take the matches of the token pattern [\b\w\w+\b] (the maximal
    runs of two or more word characters), then the word n-grams. *)
Definition lower (c : ascii) : ascii :=
  let n := nat_of_ascii c in
  if ((65 <=? n) && (n <=? 90))%nat then ascii_of_nat (n + 32) else c.

Fixpoint lowercase (s : string) : string :=
  match s with
  | EmptyString => EmptyString
  | String c s => String (lower c) (lowercase s)
  end.

Definition word_char (c : ascii) : bool :=
  let n := nat_of_ascii c in
  ((48 <=? n) && (n <=? 57) || (65 <=? n) && (n <=? 90)
   || (97 <=? n) && (n <=? 122) || (n =? 95))%nat.

Definition flush (run : string) : list string :=
  if (2 <=? String.length run)%nat then [run] else [].

Fixpoint tokenize_from (run : string) (s : string) : list string :=
  match s with
  | EmptyString => flush run
  | String c s =>
      if word_char c then tokenize_from (run ++ String c EmptyString) s
      else flush run ++ tokenize_from EmptyString s
  end.

Definition tokenize (doc : string) : list string :=
  tokenize_from EmptyString doc.

(** [" ".join(original_tokens[i : i + n])] for every start [i]. *)
Definition ngrams (n : nat) (original_tokens : list string) : list string :=
  List.map (fun i => String.concat " " (take n (drop i original_tokens)))
    (seq 0 (length original_tokens + 1 - n)).

(** [_word_ngrams] for [ngram_range = (1, max_n)]: the tokens themselves,
    then the n-grams for [n] from 2 up to [max_n], as far as the document
    has [n] tokens. *)
Definition word_ngrams (max_n : nat) (original_tokens : list string)
    : list string :=
  original_tokens
  ++ flat_map (fun n => ngrams n original_tokens)
       (seq 2 (Nat.min (max_n + 1) (length original_tokens + 1) - 2)).

Definition analyze (doc : string) : list string :=
  word_ngrams 3 (tokenize (lowercase doc)).


(** A fitted vectoriser: [vocabulary_] sends an n-gram to its column,
    [idf_] holds the weight of every column. *)
Module TfidfVectorizer.
Record t := mk
  { vocabulary_ : gmap string nat;
    idf_ : list Q }.
End TfidfVectorizer.

(** What the script takes from the library as it is: [fit] on the raw
    documents with [ngram_range=(1, 3), max_df=0.9, max_features=100000]
    (it raises on an empty vocabulary), and the square root of the
    Euclidean norm. *)
Class TfidfLibrary := {
  fit : list string -> option TfidfVectorizer.t;
  sqrt : Q -> Q }.

(** [_count_vocab(raw_documents, fixed_vocab=True)] on one document: the
    sparse row of counts; an n-gram outside the vocabulary is skipped
    ([except KeyError: continue]). *)
Definition count_vocab (v : TfidfVectorizer.t) (doc : string) : gmap nat Q :=
  foldl (fun (feature_counter : gmap nat Q) feature =>
           match TfidfVectorizer.vocabulary_ v !! feature with
           | Some feature_idx =>
               <[feature_idx :=
                   (default 0 (feature_counter !! feature_idx) + 1)%Q]>
                 feature_counter
           | None => feature_counter
           end)
    ∅ (analyze doc).

(** Every n-gram of [doc] is outside the fitted vocabulary. *)
Definition out_of_vocabulary (v : TfidfVectorizer.t) (doc : string) : Prop :=
  forall feature, In feature (analyze doc) ->
                  TfidfVectorizer.vocabulary_ v !! feature = None.

(** [X.data *= idf_[X.indices]] on the stored cells of a row. *)
Definition scale_by_idf (v : TfidfVectorizer.t) (row : gmap nat Q)
    : gmap nat Q :=
  map_imap (fun j x => Some (x * default 0 (TfidfVectorizer.idf_ v !! j))%Q)
    row.

Definition squared_norm (row : gmap nat Q) : Q :=
  map_fold (fun _ x acc => (acc + x * x)%Q) 0%Q row.

Section Vectorizer.
Context {lib : TfidfLibrary}.

(** [normalize(X, norm='l2')] on a sparse row: a row whose squared norm is
    zero is left as it is. *)
Definition normalize_l2 (row : gmap nat Q) : gmap nat Q :=
  let sum := squared_norm row in
  if Qeq_bool sum 0 then row
  else (fun x => x / sqrt sum)%Q <$> row.

(** [.toarray()]: the dense row, [0] where nothing is stored. *)
Definition toarray (n_features : nat) (row : gmap nat Q) : list Q :=
  List.map (fun j => default 0%Q (row !! j)) (seq 0 n_features).

(** [vectorizer.transform(raw_documents).toarray()]: one dense row per
    document.  The transform of no document at all raises: the input check
    of the TF-IDF step wants at least one sample. *)
Definition transform_doc (v : TfidfVectorizer.t) (doc : string) : list Q :=
  toarray (length (TfidfVectorizer.idf_ v))
    (normalize_l2 (scale_by_idf v (count_vocab v doc))).

Definition transform (v : TfidfVectorizer.t) (raw_documents : list string)
    : option (list (list Q)) :=
  match raw_documents with
  | [] => None
  | _ => Some (List.map (transform_doc v) raw_documents)
  end.

(** [X[[...8 columns...]].to_numpy()]. *)
Definition to_numpy (X : list (Row.t Q)) : list (list Q) :=
  List.map (fun row => List.map (fun c : Numeric.column => c Q (Row.numeric row))
                         Numeric.columns) X.

(** [hstack((a, b))]: the rows of [a] followed by those of [b]. *)
Definition hstack (a b : list (list Q)) : list (list Q) :=
  zip_with (fun x y => x ++ y) a b.

(** Cell 8: [(X_train_combined, X_test_combined)]. *)
Definition cell8 (X_train X_test : list (Row.t Q))
    : option (list (list Q) * list (list Q)) :=
  vectorizer ← fit (List.map Row.tokens X_train);
  X_train_tokens_vectorized ←
    transform vectorizer (List.map Row.tokens X_train);
  X_test_tokens_vectorized ←
    transform vectorizer (List.map Row.tokens X_test);
  let X_train_additional_features := to_numpy X_train in
  let X_test_additional_features := to_numpy X_test in
  Some (hstack X_train_tokens_vectorized X_train_additional_features,
        hstack X_test_tokens_vectorized X_test_additional_features).

End Vectorizer.

(** * The notebook from the CSV file to the split (cells 5 to 7) *)

Section Notebook.
Context {sp : Spacy} {rs : RandomState}.

(** Cell 5.  [csv] is the table read back from the file of cell 4,
    [completion_order] the order in which the pool finishes the tasks. *)
Definition cell5 (csv : list Subset.t) (completion_order : list nat)
    : option (list (Row.t Q) * list bool) :=
  let df := take 2000 csv in
  let labels := List.map Subset.is_spoiler df in
  let texts := List.map Subset.review_combined df in
  let days_since_review := List.map Subset.days_since_release df in
  let processed_texts :=
    as_completed completion_order (future_results texts days_since_review) in
  df ← scaled_table processed_texts;
  Some (df, labels).

(** Cells 5 to 7: [(X_train, X_test, y_train, y_test)]. *)
Definition cells_5_to_7 (csv : list Subset.t) (completion_order : list nat)
    : option (list (Row.t Q) * list (Row.t Q) * list bool * list bool) :=
  '(processed_texts, labels) ← cell5 csv completion_order;
  cell7 processed_texts labels.

End Notebook.

(** * Further definitions used by the facts at the end of the file *)

(** The review a merged row was built from: a merged row keeps every
    column of the review. *)
Definition review_of (row : Merged.t) : Review.t Z :=
  Review.mk (Merged.movie_id row) (Merged.review_date row)
    (Merged.review_summary row) (Merged.review_text row)
    (Merged.is_spoiler row).

(** The review has a movie with its identifier in [df_movies]. *)
Definition matched (df_movies : list (Movie.t Z)) (r : Review.t Z) : bool :=
  existsb (fun m => String.eqb (Review.movie_id r) (Movie.movie_id m))
    df_movies.

(** The seven symbols looked up in the two dicts are pairwise distinct
    within each dict, as the ids of [spacy.symbols] are. *)
Definition distinct_symbols (sp : Spacy) : Prop :=
  NOUN <> VERB /\ NOUN <> ADJ /\ VERB <> ADJ
  /\ NoDup [PERSON; ORG; GPE; DATE].

(** A row of the table with its eight cells scaled by the fitted scaler. *)
Definition scale_row (s : Numeric.t MinMaxScaler.params) (row : Row.t Z)
    : Row.t Q :=
  Row.mk
    (Numeric.zip_with MinMaxScaler.transform_cell s
       (Numeric.map inject_Z (Row.numeric row)))
    (Row.tokens row).


(** * The elapsed time printed after every step *)

(** [divmod(x, y)] of two floats with [y] positive and [x] not negative:
    the floor of the quotient, as a float, and the remainder.  The floats
    are taken as the rationals they are: below [2^53] seconds the
    remainder ([fmod]) and the quotient of [x - mod] by [y] are exact. *)
Definition divmod (x y : Q) : Q * Q :=
  let q := inject_Z (Qfloor (x / y)) in
  (q, (x - q * y)%Q).

(** [int(x)] of a float: the fraction is cut off. *)
Definition int (x : Q) : Z :=
  if Qle_bool 0 x then Qfloor x else Qceiling x.

(** [f"{n:02d}"]: the decimal digits of [n], filled with zeros to two
    characters. *)
Definition format_02d (n : Z) : string :=
  let s := NilZero.string_of_int (Z.to_int n) in
  if (String.length s <? 2)%nat then String "0" s else s.

(** [hours, rem = divmod(elapsed_time, 3600)];
    [minutes, seconds = divmod(rem, 60)]; the three numbers that are
    printed. *)
Definition elapsed_fields (elapsed_time : Q) : Z * Z * Z :=
  let '(hours, rem) := divmod elapsed_time 3600 in
  let '(minutes, seconds) := divmod rem 60 in
  (int hours, int minutes, int seconds).

(** [f"Elapsed time: {int(hours):02d}:{int(minutes):02d}:{int(seconds):02d}"]. *)
Definition elapsed_line (elapsed_time : Q) : string :=
  let '(hours, minutes, seconds) := elapsed_fields elapsed_time in
  ("Elapsed time: " ++ format_02d hours ++ ":" ++ format_02d minutes
   ++ ":" ++ format_02d seconds)%string.

(** * Sample data and stand-ins for the libraries

    Concrete inputs on which the theorems below are run, and small
    executable instances of the library interfaces. *)

(** A small feature table: the verb count and the last three columns are
    constant. *)
Definition example_df : list (Row.t Z) :=
  [ Row.mk (Numeric.mk 10 3 2 1 0 0 0 0) "great twist";
    Row.mk (Numeric.mk (-5) 1 2 0 1 0 0 0) "killer die";
    Row.mk (Numeric.mk 40 2 2 4 0 0 0 0) "end" ].


(** A date parser for [YYYY-MM-DD] alone (days from the civil calendar). *)
Definition digit (c : ascii) : option Z :=
  let n := Z.of_nat (nat_of_ascii c) in
  if (48 <=? n) && (n <=? 57) then Some (n - 48) else None.

Definition days_from_civil (y m d : Z) : Z :=
  let y := if m <=? 2 then y - 1 else y in
  let era := y / 400 in
  let yoe := y - era * 400 in
  let doy := (153 * (if 2 <? m then m - 3 else m + 9) + 2) / 5 + d - 1 in
  let doe := yoe * 365 + yoe / 4 - yoe / 100 + doy in
  era * 146097 + doe - 719468.

Definition iso_to_datetime (s : string) : option Z :=
  match s with
  | String y1 (String y2 (String y3 (String y4 (String "-"
      (String m1 (String m2 (String "-"
         (String d1 (String d2 EmptyString))))))))) =>
      y1 ← digit y1; y2 ← digit y2; y3 ← digit y3; y4 ← digit y4;
      m1 ← digit m1; m2 ← digit m2; d1 ← digit d1; d2 ← digit d2;
      Some (days_from_civil (1000 * y1 + 100 * y2 + 10 * y3 + y4)
              (10 * m1 + m2) (10 * d1 + d2) * ns_per_day)
  | _ => None
  end.

(** The same date written [YYYY/MM/DD]. *)
Definition slash_to_datetime (s : string) : option Z :=
  match s with
  | String y1 (String y2 (String y3 (String y4 (String "/"
      (String m1 (String m2 (String "/"
         (String d1 (String d2 EmptyString))))))))) =>
      y1 ← digit y1; y2 ← digit y2; y3 ← digit y3; y4 ← digit y4;
      m1 ← digit m1; m2 ← digit m2; d1 ← digit d1; d2 ← digit d2;
      Some (days_from_civil (1000 * y1 + 100 * y2 + 10 * y3 + y4)
              (10 * m1 + m2) (10 * d1 + d2) * ns_per_day)
  | _ => None
  end.

(** A stand-in for pandas that knows these two formats: the format of a
    column is the one its first cell is written in ([false] for
    [YYYY-MM-DD], [true] for [YYYY/MM/DD]). *)
Definition iso_pandas : Pandas :=
  {| format := bool;
     guess_datetime_format := fun s =>
       match iso_to_datetime s, slash_to_datetime s with
       | Some _, _ => Some false
       | None, Some _ => Some true
       | None, None => None
       end;
     array_strptime := fun fmt =>
       if fmt : bool then slash_to_datetime else iso_to_datetime;
     dateutil_parse := fun s =>
       match iso_to_datetime s with
       | Some d => Some d
       | None => slash_to_datetime s
       end |}.

(** Two movies of the example of the specification: a ten-character date
    and a nine-character one. *)
Definition movie_valid : Movie.t string := Movie.mk "tt0000001" "2020-01-01".
Definition movie_short : Movie.t string := Movie.mk "tt0000002" "2020-1-1".

Definition example_reviews : list (Review.t string) :=
  [ Review.mk "tt0000001" "2020-01-11" "great" "a great twist" false;
    Review.mk "tt0000002" "2020-01-11" "dull" "nothing happens" false;
    Review.mk "tt0000003" "2020-01-11" "lost" "no such movie" true ].

(** A language model by table lookup: the text is cut at spaces and every
    word is looked up in a small lexicon (lemma, stop word, punctuation,
    part of speech, entity type); a word that is not listed is its own
    lemma.  [lexicon_spacy] fixes the ids of the seven symbols. *)
Definition lexicon : list (string * Token.t) :=
  [ ("the", Token.mk "the" true false 90 0);
    ("a", Token.mk "a" true false 90 0);
    ("is", Token.mk "be" true false 87 0);
    ("part", Token.mk "part" true false 92 0);
    ("first", Token.mk "first" true false 84 0);
    (".", Token.mk "." false true 97 0);
    ("great", Token.mk "great" false false 84 0);
    ("movie", Token.mk "movie" false false 92 0);
    ("killer", Token.mk "killer" false false 92 0);
    ("butler", Token.mk "butler" false false 92 0);
    ("twist", Token.mk "twist" false false 92 0);
    ("dies", Token.mk "die" false false 100 0);
    ("Bruce", Token.mk "Bruce" false false 96 380);
    ("Gotham", Token.mk "Gotham" false false 96 384);
    ("2008", Token.mk "2008" false false 93 391) ]%string.

Definition lookup_word (word : string) : Token.t :=
  match List.find (fun e => String.eqb (fst e) word) lexicon with
  | Some e => snd e
  | None => Token.mk word false false 101 0
  end.

Fixpoint split_at_spaces (word : string) (s : string) : list string :=
  match s with
  | EmptyString => if String.eqb word EmptyString then [] else [word]
  | String c s =>
      if Ascii.eqb c " " then
        (if String.eqb word EmptyString then [] else [word])
        ++ split_at_spaces EmptyString s
      else split_at_spaces (word ++ String c EmptyString) s
  end.

Definition lexicon_spacy : Spacy :=
  {| nlp := fun text => map lookup_word (split_at_spaces EmptyString text);
     NOUN := 92; VERB := 100; ADJ := 84;
     PERSON := 380; ORG := 383; GPE := 384; DATE := 391 |}.

(** A generator that reverses what it is asked to permute and draws the
    first elements. *)
Definition reversing_rng : RandomState :=
  {| rng := unit;
     check_random_state := fun _ => tt;
     permutation := fun l s => (rev l, s);
     choice := fun a size s => (take size a, s) |}.

(** Ten records read back from the CSV file, with alternating labels, and
    a completion order in which the second task finishes before the
    first. *)
Definition example_csv : list Subset.t :=
  [ Subset.mk 120 "a great movie ." false;
    Subset.mk 3 "the killer is the butler ." true;
    Subset.mk 45 "the first part is great ." false;
    Subset.mk 7 "Bruce dies ." true;
    Subset.mk 300 "a movie ." false;
    Subset.mk 12 "the twist is the killer ." true;
    Subset.mk 80 "great ." false;
    Subset.mk (-2) "the butler dies in Gotham ." true;
    Subset.mk 61 "a great part ." false;
    Subset.mk 30 "the killer dies in 2008 ." true ]%string.

Definition example_completion_order : list nat :=
  [1; 0; 2; 3; 4; 5; 6; 7; 8; 9]%nat.

(** 100 labels of which 60 are [true]. *)
Definition example_labels : list bool := repeat true 60 ++ repeat false 40.

(** A stand-in for the fit of the vectoriser: the distinct n-grams of the
    documents in the order they are met, every weight 1; the square root
    is taken on the integer part. *)
Fixpoint distinct (l : list string) : list string :=
  match l with
  | [] => []
  | x :: l => x :: List.filter (fun y => negb (String.eqb x y)) (distinct l)
  end.

Definition first_seen_library : TfidfLibrary :=
  {| fit := fun raw_documents =>
       let terms := distinct (flat_map analyze raw_documents) in
       match terms with
       | [] => None
       | _ => Some (TfidfVectorizer.mk
                      (list_to_map (zip terms (seq 0 (length terms))))
                      (repeat 1%Q (length terms)))
       end;
     sqrt := fun q => inject_Z (Z.sqrt (Qfloor q)) |}.

(** * Facts about stage 1 *)

Lemma filter_valid_release_dates_In (dataframe : list (Movie.t string)) row :
  In row (filter_valid_release_dates dataframe) <->
  In row dataframe /\ String.length (Movie.release_date row) = 10%nat.
Proof.
  unfold filter_valid_release_dates. rewrite filter_In, Nat.eqb_eq. tauto.
Qed.

Lemma merge_In (df_reviews : list (Review.t Z)) df_movies row :
  In row (merge df_reviews df_movies) <->
  exists r m, In r df_reviews /\ In m df_movies
              /\ Review.movie_id r = Movie.movie_id m /\ row = join_row r m.
Proof.
  unfold merge, matches. rewrite in_flat_map. split.
  - intros (r & Hr & Hrow). apply in_map_iff in Hrow as (m & <- & Hm).
    apply filter_In in Hm as [Hm Heq]. apply String.eqb_eq in Heq.
    exists r, m. auto.
  - intros (r & m & Hr & Hm & Heq & ->). exists r. split; [done|].
    apply in_map, filter_In. split; [done|]. by apply String.eqb_eq.
Qed.

Lemma Forall2_In_r {A B} (P : A -> B -> Prop) l k y :
  Forall2 P l k -> In y k -> exists x, In x l /\ P x y.
Proof.
  induction 1 as [|x y' l k Hxy _ IH]; intros Hin; [done|].
  destruct Hin as [->|Hin].
  - exists x. split; [by left | done].
  - destruct (IH Hin) as (x' & Hx' & HP). exists x'. split; [by right | done].
Qed.

Lemma Forall2_In_l {A B} (P : A -> B -> Prop) l k x :
  Forall2 P l k -> In x l -> exists y, In y k /\ P x y.
Proof.
  induction 1 as [|x' y l k Hxy _ IH]; intros Hin; [done|].
  destruct Hin as [->|Hin].
  - exists y. split; [by left | done].
  - destruct (IH Hin) as (y' & Hy' & HP). exists y'. split; [by right | done].
Qed.

Section JoinFilterFacts.
Context {pd : Pandas}.

Lemma review_to_datetime_Some review_date r r' :
  review_to_datetime review_date r = Some r' ->
  Review.movie_id r' = Review.movie_id r
  /\ to_datetime review_date (Review.review_date r)
     = Some (Review.review_date r').
Proof.
  unfold review_to_datetime. destruct (to_datetime _ _); intros;
    by simplify_eq/=.
Qed.

Lemma movie_to_datetime_Some release_date m m' :
  movie_to_datetime release_date m = Some m' ->
  Movie.movie_id m' = Movie.movie_id m
  /\ to_datetime release_date (Movie.release_date m)
     = Some (Movie.release_date m').
Proof.
  unfold movie_to_datetime. destruct (to_datetime _ _); intros;
    by simplify_eq/=.
Qed.

(** Every row of [merged_df] joins a review of the input with a movie that
    passed the date filter. *)
Lemma merged_df_In df_reviews df_movies merged row :
  merged_df df_reviews df_movies = Some merged ->
  In row merged ->
  exists r m,
    In r df_reviews /\ In m (filter_valid_release_dates df_movies)
    /\ Review.movie_id r = Movie.movie_id m
    /\ Merged.movie_id row = Movie.movie_id m
    /\ to_datetime
         (map Movie.release_date (filter_valid_release_dates df_movies))
         (Movie.release_date m)
       = Some (Merged.release_date row).
Proof.
  unfold merged_df. intros Hrun Hrow.
  destruct (mapM (review_to_datetime _) df_reviews) as [rs|] eqn:Hrs; [|done].
  destruct (mapM (movie_to_datetime _) _) as [ms|] eqn:Hms; simplify_eq/=.
  apply merge_In in Hrow as (r' & m' & Hr' & Hm' & Hid & ->).
  apply mapM_Some in Hrs, Hms.
  destruct (Forall2_In_r _ _ _ _ Hrs Hr') as (r & Hr & Hrr).
  destruct (Forall2_In_r _ _ _ _ Hms Hm') as (m & Hm & Hmm).
  apply review_to_datetime_Some in Hrr as [Hrid _].
  apply movie_to_datetime_Some in Hmm as [Hmid Hdate].
  exists r, m. simpl. repeat split; try done; congruence.
Qed.

(** Every pair of a review and a filtered movie with equal identifiers has
    its row in [merged_df], with the columns of the review. *)
Lemma merged_df_matched df_reviews df_movies merged r m :
  merged_df df_reviews df_movies = Some merged ->
  In r df_reviews -> In m (filter_valid_release_dates df_movies) ->
  Review.movie_id r = Movie.movie_id m ->
  exists row,
    In row merged
    /\ Merged.movie_id row = Review.movie_id r
    /\ Merged.review_summary row = Review.review_summary r
    /\ Merged.review_text row = Review.review_text r
    /\ Merged.is_spoiler row = Review.is_spoiler r.
Proof.
  unfold merged_df. intros Hrun Hr Hm Hid.
  destruct (mapM (review_to_datetime _) df_reviews) as [rs|] eqn:Hrs; [|done].
  destruct (mapM (movie_to_datetime _) _) as [ms|] eqn:Hms; simplify_eq/=.
  apply mapM_Some in Hrs, Hms.
  destruct (Forall2_In_l _ _ _ _ Hrs Hr) as (r' & Hr' & Hrr).
  destruct (Forall2_In_l _ _ _ _ Hms Hm) as (m' & Hm' & Hmm).
  pose proof (review_to_datetime_Some _ _ _ Hrr) as [Hrid _].
  pose proof (movie_to_datetime_Some _ _ _ Hmm) as [Hmid _].
  exists (join_row r' m'). split.
  - apply merge_In. exists r', m'. repeat split; try done. congruence.
  - unfold review_to_datetime in Hrr.
    destruct (to_datetime _ _); simplify_eq/=. done.
Qed.

(** C6.  The date filter keeps a movie record exactly when its release-date
    string has ten characters, whatever the characters are; and since the
    filter runs before the join, every row of the merged table comes from a
    movie record with a ten-character date: a record of any other length
    contributes no row. *)
Theorem C6_filter_keeps_exactly_length_10 :
  (forall dataframe row,
      In row (filter_valid_release_dates dataframe) <->
      In row dataframe /\ String.length (Movie.release_date row) = 10%nat)
  /\ (forall df_reviews df_movies merged row,
        merged_df df_reviews df_movies = Some merged ->
        In row merged ->
        exists m,
          In m df_movies
          /\ String.length (Movie.release_date m) = 10%nat
          /\ Movie.movie_id m = Merged.movie_id row
          /\ to_datetime
               (map Movie.release_date (filter_valid_release_dates df_movies))
               (Movie.release_date m)
             = Some (Merged.release_date row)).
Proof.
  split; [apply filter_valid_release_dates_In|].
  intros df_reviews df_movies merged row Hrun Hrow.
  destruct (merged_df_In _ _ _ _ Hrun Hrow) as (r & m & _ & Hm & _ & Hid & Hd).
  apply filter_valid_release_dates_In in Hm as [Hm Hlen].
  exists m. auto.
Qed.

Lemma merged_df_is_Some df_reviews df_movies :
  dates_parse df_reviews df_movies ->
  is_Some (merged_df df_reviews df_movies).
Proof.
  intros [Hr Hm]. unfold merged_df.
  assert (is_Some (mapM (review_to_datetime (map Review.review_date df_reviews))
                     df_reviews)) as [rs ->].
  { apply mapM_is_Some, Forall_forall. intros r Hin%list_elem_of_In.
    destruct (Hr r Hin) as [d Hd]. unfold compose, review_to_datetime.
    by rewrite Hd. }
  assert (is_Some (mapM (movie_to_datetime
                           (map Movie.release_date
                              (filter_valid_release_dates df_movies)))
                     (filter_valid_release_dates df_movies))) as [ms ->].
  { apply mapM_is_Some, Forall_forall. intros m Hin%list_elem_of_In.
    destruct (Hm m Hin) as [d Hd]. unfold compose, movie_to_datetime.
    by rewrite Hd. }
  by eexists.
Qed.

(** C7.  The merge is an inner join: its rows are exactly the pairs of a
    review and a movie with equal identifiers, so every merged row carries
    the movie identifier of a movie of the filtered set; a review whose
    identifier matches no filtered movie has no row in the result, while
    every pair of a review and a filtered movie with equal identifiers has
    its row; and unmatched identifiers raise nothing: the run yields its
    table whenever the two date columns are parsed, matched or not. *)
Theorem C7_merge_is_inner_join :
  (forall df_reviews df_movies row,
      In row (merge df_reviews df_movies) <->
      exists r m, In r df_reviews /\ In m df_movies
                  /\ Review.movie_id r = Movie.movie_id m
                  /\ row = join_row r m)
  /\ (forall df_reviews df_movies merged,
      merged_df df_reviews df_movies = Some merged ->
      (forall row, In row merged ->
         In (Merged.movie_id row)
            (map Movie.movie_id (filter_valid_release_dates df_movies)))
      /\ (forall r, In r df_reviews ->
            ~ In (Review.movie_id r)
                (map Movie.movie_id (filter_valid_release_dates df_movies)) ->
            forall row, In row merged ->
                        Merged.movie_id row <> Review.movie_id r)
      /\ (forall r m, In r df_reviews ->
            In m (filter_valid_release_dates df_movies) ->
            Review.movie_id r = Movie.movie_id m ->
            exists row,
              In row merged
              /\ Merged.movie_id row = Review.movie_id r
              /\ Merged.review_summary row = Review.review_summary r
              /\ Merged.review_text row = Review.review_text r
              /\ Merged.is_spoiler row = Review.is_spoiler r))
  /\ (forall df_reviews df_movies,
        dates_parse df_reviews df_movies ->
        exists merged, merged_df df_reviews df_movies = Some merged).
Proof.
  split; [apply merge_In|]. split.
  - intros df_reviews df_movies merged Hrun.
    assert (forall row, In row merged ->
              In (Merged.movie_id row)
                 (map Movie.movie_id (filter_valid_release_dates df_movies)))
      as Hids.
    { intros row Hrow.
      destruct (merged_df_In _ _ _ _ Hrun Hrow) as (r & m & _ & Hm & _ & Hid & _).
      rewrite Hid. by apply in_map. }
    split; [exact Hids|]. split.
    + intros r _ Hunmatched row Hrow Heq. apply Hunmatched.
      rewrite <- Heq. by apply Hids.
    + intros r m. by apply merged_df_matched.
  - intros df_reviews df_movies Hparse.
    by apply merged_df_is_Some.
Qed.

End JoinFilterFacts.

(** * Facts about stage 2 *)

Lemma count_by_foldl (a : attr_id) (k : Z) (doc : Doc) (acc : gmap Z Z) :
  default 0
    (foldl (fun (counts : gmap Z Z) token =>
              let v := get_token_attr token a in
              <[v := default 0 (counts !! v) + 1]> counts) acc doc !! k)
  = default 0 (acc !! k)
    + count_tokens (fun t => get_token_attr t a =? k) doc.
Proof.
  revert acc. induction doc as [|t doc IH]; intros acc.
  - unfold count_tokens. simpl. lia.
  - simpl foldl. rewrite IH. unfold count_tokens. simpl List.filter.
    destruct (Z.eqb_spec (get_token_attr t a) k) as [->|Hne].
    + rewrite lookup_insert_eq. simpl. lia.
    + rewrite lookup_insert_ne by done. lia.
Qed.

(** [doc.count_by(attr).get(k, 0)] is the number of tokens of the whole
    document whose attribute is [k]. *)
Lemma get_count_by (doc : Doc) (a : attr_id) (k : Z) :
  get (count_by doc a) k 0
  = count_tokens (fun t => get_token_attr t a =? k) doc.
Proof.
  unfold get, count_by. rewrite count_by_foldl, lookup_empty. simpl. lia.
Qed.

Section ExtractorFacts.
Context {sp : Spacy}.

(** The feature list of one record, cell by cell. *)
Lemma preprocess_features text days :
  preprocess text days =
  [ PInt days;
    PInt (count_tokens (fun t => Token.pos t =? NOUN) (nlp text));
    PInt (count_tokens (fun t => Token.pos t =? VERB) (nlp text));
    PInt (count_tokens (fun t => Token.pos t =? ADJ) (nlp text));
    PInt (count_tokens (fun t => Token.ent_type t =? PERSON) (nlp text));
    PInt (count_tokens (fun t => Token.ent_type t =? ORG) (nlp text));
    PInt (count_tokens (fun t => Token.ent_type t =? GPE) (nlp text));
    PInt (count_tokens (fun t => Token.ent_type t =? DATE) (nlp text));
    PStr (cleaned (nlp text)) ].
Proof.
  unfold preprocess. rewrite !get_count_by. reflexivity.
Qed.

Lemma DataFrame_row_preprocess text days :
  DataFrame_row (preprocess text days) = Some (feature_row text days).
Proof. rewrite preprocess_features. reflexivity. Qed.

End ExtractorFacts.

(** ** The worker pool *)

Lemma lookup_map {A B} (f : A -> B) (l : list A) (i : nat) :
  map f l !! i = f <$> l !! i.
Proof. revert i. induction l as [|x l IH]; intros [|i]; simpl; auto. Qed.

(** With every index in range, position [k] of the collected list holds
    the future submitted at position [completion_order !! k]. *)
Lemma as_completed_Forall2 {A} (completion_order : list nat) (fs : list A) :
  Forall (fun i => (i < length fs)%nat) completion_order ->
  Forall2 (fun i x => fs !! i = Some x) completion_order
    (as_completed completion_order fs).
Proof.
  unfold as_completed. induction 1 as [|i order Hi _ IH]; simpl.
  - constructor.
  - destruct (lookup_lt_is_Some_2 fs i Hi) as [x Hx]. rewrite Hx. simpl.
    by constructor.
Qed.

Lemma omap_lookup_seq {A} (pre fs : list A) :
  omap (fun i => (pre ++ fs) !! i) (seq (length pre) (length fs)) = fs.
Proof.
  revert pre. induction fs as [|x fs IH]; intros pre; simpl; [done|].
  rewrite list_lookup_middle by done. simpl. f_equal.
  specialize (IH (pre ++ [x])). rewrite length_app, <- app_assoc in IH.
  simpl in IH. rewrite Nat.add_1_r in IH. exact IH.
Qed.

(** Whatever the completion order, the collected list holds the submitted
    futures, each once. *)
Lemma as_completed_Permutation {A} (completion_order : list nat) (fs : list A) :
  is_completion_order completion_order (length fs) ->
  Permutation (as_completed completion_order fs) fs.
Proof.
  unfold is_completion_order, as_completed. intros Hperm.
  rewrite Hperm. by rewrite <- (omap_lookup_seq [] fs) at 2.
Qed.

Lemma is_completion_order_lt completion_order n :
  is_completion_order completion_order n ->
  Forall (fun i => (i < n)%nat) completion_order.
Proof.
  unfold is_completion_order. intros Hperm. apply Forall_forall.
  intros i Hi%list_elem_of_In. eapply Permutation_in in Hi; [|exact Hperm].
  apply in_seq in Hi. lia.
Qed.

Section PoolFacts.
Context {sp : Spacy}.

Lemma future_results_lookup texts days_since_review (i : nat) features :
  future_results texts days_since_review !! i = Some features <->
  exists text days,
    texts !! i = Some text /\ days_since_review !! i = Some days
    /\ features = preprocess text days.
Proof.
  unfold future_results. rewrite lookup_map, fmap_Some. split.
  - intros ([text days] & Hzip & ->). apply lookup_zip_Some in Hzip as [? ?].
    by exists text, days.
  - intros (text & days & Ht & Hd & ->). exists (text, days). split; [|done].
    by apply lookup_zip_Some.
Qed.

(** Row [k] of the table built from the collected results is the row of the
    record that finished [k]-th. *)
Lemma DataFrame_as_completed texts days_since_review completion_order :
  Forall (fun i => (i < length (future_results texts days_since_review))%nat)
    completion_order ->
  exists df,
    DataFrame (as_completed completion_order
                 (future_results texts days_since_review)) = Some df
    /\ Forall2 (fun i row =>
                  exists text days,
                    texts !! i = Some text
                    /\ days_since_review !! i = Some days
                    /\ row = feature_row text days)
         completion_order df.
Proof.
  intros Hlt%as_completed_Forall2. unfold DataFrame.
  induction Hlt as [|i features order fs Hi _ (df & Hdf & Hrows)].
  - exists []. split; [done | constructor].
  - apply future_results_lookup in Hi as (text & days & Ht & Hd & ->).
    exists (feature_row text days :: df). split.
    + change (mapM ?f (?x :: ?l)) with (y ← f x; k ← mapM f l; Some (y :: k)).
      by rewrite DataFrame_row_preprocess, Hdf.
    + constructor; [|done]. by exists text, days.
Qed.

(** C8.  For every record the extractor returns the nine features in the
    order days, NOUN, VERB, ADJ, PERSON, ORG, GPE, DATE, tokens: the days it
    was given, seven counts taken over all the tokens of the parsed text
    (stop words and punctuation included), and the lemmas of the tokens that
    are neither stop words nor punctuation, joined by single spaces. *)
Theorem C8_preprocess_returns_nine_features text days :
  let doc := nlp text in
  preprocess text days =
  [ PInt days;
    PInt (Z.of_nat (length (List.filter (fun t => Token.pos t =? NOUN) doc)));
    PInt (Z.of_nat (length (List.filter (fun t => Token.pos t =? VERB) doc)));
    PInt (Z.of_nat (length (List.filter (fun t => Token.pos t =? ADJ) doc)));
    PInt (Z.of_nat
            (length (List.filter (fun t => Token.ent_type t =? PERSON) doc)));
    PInt (Z.of_nat
            (length (List.filter (fun t => Token.ent_type t =? ORG) doc)));
    PInt (Z.of_nat
            (length (List.filter (fun t => Token.ent_type t =? GPE) doc)));
    PInt (Z.of_nat
            (length (List.filter (fun t => Token.ent_type t =? DATE) doc)));
    PStr (String.concat " "
            (map Token.lemma_
               (List.filter
                  (fun t => negb (Token.is_stop t) && negb (Token.is_punct t))
                  doc))) ]
  /\ length (preprocess text days) = 9%nat.
Proof.
  intros doc. split.
  - apply preprocess_features.
  - by rewrite preprocess_features.
Qed.

(** C10.  Whatever order the pool finishes the tasks in, row [k] of the
    feature table holds the days and the token string of one and the same
    record, the one that finished [k]-th: the days travel inside the feature
    list, at its head, so collecting the lists in another order cannot part
    them from the tokens. *)
Theorem C10_days_stay_with_tokens texts days_since_review completion_order :
  is_completion_order completion_order
    (length (future_results texts days_since_review)) ->
  exists df,
    DataFrame (as_completed completion_order
                 (future_results texts days_since_review)) = Some df
    /\ Forall2 (fun i row =>
                  exists text days,
                    texts !! i = Some text
                    /\ days_since_review !! i = Some days
                    /\ Numeric.Days (Row.numeric row) = days
                    /\ Row.tokens row = cleaned (nlp text))
         completion_order df
    /\ Forall (fun features => exists days, head features = Some (PInt days))
         (future_results texts days_since_review).
Proof.
  intros Horder%is_completion_order_lt.
  destruct (DataFrame_as_completed _ _ _ Horder) as (df & Hdf & Hrows).
  exists df. split; [done|]. split.
  - eapply Forall2_impl; [exact Hrows|].
    intros i row (text & days & Ht & Hd & ->). by exists text, days.
  - apply Forall_forall. intros features Hin.
    apply list_elem_of_lookup in Hin as [i Hi].
    apply future_results_lookup in Hi as (text & days & _ & _ & ->).
    exists days. by rewrite preprocess_features.
Qed.

End PoolFacts.

(** * Facts about stage 3 *)

Section ScalerFacts.
Import MinMaxScaler.
#[local] Open Scope Q_scope.

Lemma fold_Qmin_le (xs : list Q) (x y : Q) :
  In y (x :: xs) -> fold_left Qmin xs x <= y.
Proof.
  revert x y. induction xs as [|a xs IH]; intros x y Hin; simpl.
  - destruct Hin as [->|[]]. apply Qle_refl.
  - destruct Hin as [->|[->|Hin]].
    + apply Qle_trans with (Qmin y a); [apply IH; by left | apply Q.le_min_l].
    + apply Qle_trans with (Qmin x y); [apply IH; by left | apply Q.le_min_r].
    + apply IH. by right.
Qed.

Lemma fold_Qmin_attained (xs : list Q) (x : Q) :
  exists y, In y (x :: xs) /\ fold_left Qmin xs x == y.
Proof.
  revert x. induction xs as [|a xs IH]; intros x; simpl.
  - exists x. split; [by left | reflexivity].
  - destruct (IH (Qmin x a)) as (y & [<-|Hin] & Hy).
    + destruct (Q.min_dec x a) as [H|H].
      * exists x. split; [by left | by rewrite Hy].
      * exists a. split; [right; by left | by rewrite Hy].
    + exists y. split; [right; by right | done].
Qed.

Lemma fold_Qmax_ge (xs : list Q) (x y : Q) :
  In y (x :: xs) -> y <= fold_left Qmax xs x.
Proof.
  revert x y. induction xs as [|a xs IH]; intros x y Hin; simpl.
  - destruct Hin as [->|[]]. apply Qle_refl.
  - destruct Hin as [->|[->|Hin]].
    + apply Qle_trans with (Qmax y a); [apply Q.le_max_l | apply IH; by left].
    + apply Qle_trans with (Qmax x y); [apply Q.le_max_r | apply IH; by left].
    + apply IH. by right.
Qed.

Lemma fold_Qmax_attained (xs : list Q) (x : Q) :
  exists y, In y (x :: xs) /\ fold_left Qmax xs x == y.
Proof.
  revert x. induction xs as [|a xs IH]; intros x; simpl.
  - exists x. split; [by left | reflexivity].
  - destruct (IH (Qmax x a)) as (y & [<-|Hin] & Hy).
    + destruct (Q.max_dec x a) as [H|H].
      * exists x. split; [by left | by rewrite Hy].
      * exists a. split; [right; by left | by rewrite Hy].
    + exists y. split; [right; by right | done].
Qed.

(** [nanmin] and [nanmax] are the least and the greatest cell of a column. *)
Lemma nanmin_le col x : In x col -> nanmin col <= x.
Proof. destruct col; [done|]. apply fold_Qmin_le. Qed.

Lemma nanmax_ge col x : In x col -> x <= nanmax col.
Proof. destruct col; [done|]. apply fold_Qmax_ge. Qed.

Lemma nanmin_attained col :
  col <> [] -> exists y, In y col /\ nanmin col == y.
Proof. destruct col; [done|]. intros _. apply fold_Qmin_attained. Qed.

Lemma nanmax_attained col :
  col <> [] -> exists y, In y col /\ nanmax col == y.
Proof. destruct col; [done|]. intros _. apply fold_Qmax_attained. Qed.

Lemma ten_eps_bounds : 0 < 10 * eps /\ 10 * eps <= 1.
Proof. unfold eps. split; reflexivity || (intro H; discriminate H). Qed.

(** The divisor of the scale is never zero. *)
Lemma handle_zeros_in_scale_pos r : 0 < handle_zeros_in_scale r.
Proof.
  unfold handle_zeros_in_scale. destruct (Qlt_le_dec r (10 * eps)) as [_|H].
  - reflexivity.
  - eapply Qlt_le_trans; [apply ten_eps_bounds | exact H].
Qed.

(** [X * scale_ + min_] is [(x - min) / range], with the range as
    [_handle_zeros_in_scale] leaves it. *)
Lemma transform_cell_fit col x :
  transform_cell (fit_column col) x
  == (x - nanmin col) / handle_zeros_in_scale (nanmax col - nanmin col).
Proof.
  unfold transform_cell, fit_column, feature_range. simpl.
  pose proof (handle_zeros_in_scale_pos (nanmax col - nanmin col)) as Hpos.
  field. intros H. rewrite H in Hpos. by apply Qlt_irrefl in Hpos.
Qed.

Lemma transform_cell_min col x :
  x == nanmin col -> transform_cell (fit_column col) x == 0.
Proof.
  intros Hx. rewrite transform_cell_fit.
  assert (x - nanmin col == 0) as E by lra.
  rewrite E. unfold Qdiv. apply Qmult_0_l.
Qed.

Lemma transform_cell_constant col x :
  In x col -> nanmax col == nanmin col ->
  transform_cell (fit_column col) x == 0.
Proof.
  intros Hin Hconst. apply transform_cell_min.
  pose proof (nanmin_le col x Hin). pose proof (nanmax_ge col x Hin). lra.
Qed.

End ScalerFacts.

(** ** The scaler on the feature table *)

(** The eight columns, one case each. *)
Ltac each_column H :=
  unfold Numeric.columns in H; simpl in H;
  repeat (destruct H as [<-|H]; [reflexivity|]); destruct H.

Lemma column_tabulate {A} (f : Numeric.column -> A) (c : Numeric.column) :
  In c Numeric.columns -> c A (Numeric.tabulate f) = f c.
Proof. intros H. each_column H. Qed.

Lemma column_map {A B} (f : A -> B) (x : Numeric.t A) (c : Numeric.column) :
  In c Numeric.columns -> c B (Numeric.map f x) = f (c A x).
Proof. apply (column_tabulate (fun c => f (c A x))). Qed.

Lemma column_zip_with {A B C} (f : A -> B -> C) x y (c : Numeric.column) :
  In c Numeric.columns -> c C (Numeric.zip_with f x y) = f (c A x) (c B y).
Proof. apply (column_tabulate (fun c => f (c A x) (c B y))). Qed.

Lemma column_numeric_columns (c : Numeric.column) df :
  In c Numeric.columns ->
  map (c Q) (numeric_columns df) = float_column c df.
Proof.
  intros Hc. unfold numeric_columns, float_column. rewrite map_map.
  apply map_ext. intros row. by apply column_map.
Qed.

Section TableFacts.
Import MinMaxScaler.
#[local] Open Scope Q_scope.

(** Fitting a non-empty table succeeds, and cell [c] of row [i] is scaled
    with the parameters fitted on the whole of column [c]. *)
Lemma fit_transform_cells (df : list (Row.t Z)) :
  df <> [] ->
  exists s normalized,
    fit (numeric_columns df) = Some s
    /\ fit_transform (numeric_columns df) = Some normalized
    /\ length normalized = length df
    /\ (forall c, In c Numeric.columns ->
                  c params s = fit_column (float_column c df))
    /\ (forall i row, df !! i = Some row ->
          exists nrow,
            normalized !! i = Some nrow
            /\ forall c, In c Numeric.columns ->
                 c Q nrow
                 = transform_cell (fit_column (float_column c df))
                     (inject_Z (c Z (Row.numeric row)))).
Proof.
  intros Hne.
  set (s := Numeric.tabulate
              (fun c => fit_column (map (c Q) (numeric_columns df)))).
  assert (fit (numeric_columns df) = Some s) as Hfit.
  { unfold fit. destruct df; [done|]. reflexivity. }
  assert (forall c, In c Numeric.columns ->
                    c params s = fit_column (float_column c df)) as Hs.
  { intros c Hc. unfold s. rewrite column_tabulate by done.
    by rewrite column_numeric_columns. }
  exists s, (transform s (numeric_columns df)). split; [done|].
  split; [unfold fit_transform; by rewrite Hfit|].
  split; [unfold transform, numeric_columns; by rewrite !length_map|].
  split; [done|].
  intros i row Hrow. eexists. split.
  - unfold transform, numeric_columns. rewrite !lookup_map, Hrow. reflexivity.
  - intros c Hc. rewrite column_zip_with, column_map by done. by rewrite Hs.
Qed.

Lemma float_column_In (c : Numeric.column) df row :
  In row df -> In (inject_Z (c Z (Row.numeric row))) (float_column c df).
Proof.
  intros Hin. unfold float_column.
  by apply (in_map (fun row => inject_Z (c Z (Row.numeric row)))).
Qed.

Lemma float_column_attained (c : Numeric.column) df (y : Q) :
  In y (float_column c df) ->
  exists row, In row df /\ y = inject_Z (c Z (Row.numeric row)).
Proof.
  unfold float_column. intros (row & <- & Hin)%in_map_iff. by exists row.
Qed.

Lemma constant_range_zero (c : Numeric.column) df :
  df <> [] -> constant_column c df ->
  nanmax (float_column c df) == nanmin (float_column c df).
Proof.
  intros Hne Hconst.
  destruct (nanmin_attained (float_column c df)) as (lo & Hlo & ->).
  { destruct df; [done|]. discriminate. }
  destruct (nanmax_attained (float_column c df)) as (hi & Hhi & ->).
  { destruct df; [done|]. discriminate. }
  apply float_column_attained in Hlo as (rlo & Hrlo & ->).
  apply float_column_attained in Hhi as (rhi & Hrhi & ->).
  by rewrite (Hconst rhi rlo).
Qed.

End TableFacts.

(** ** Binary64 arithmetic on the cells of the table *)











(** ** Rounding does not overflow while the exponent is small *)





























(** ** The binary64 scaler on the feature table *)






Section Binary64Claims.




End Binary64Claims.

Section ScalerClaims.
Import MinMaxScaler.
#[local] Open Scope Q_scope.

(** C5.  In a column of zero variance the scaler divides by 1, not by the
    range: the divisor [_handle_zeros_in_scale] returns is never zero, and
    every cell of the column is scaled to 0. *)
Theorem C5_constant_column_scales_to_0 (df : list (Row.t Z))
    (c : Numeric.column) :
  df <> [] -> In c Numeric.columns -> constant_column c df ->
  exists s normalized,
    fit (numeric_columns df) = Some s
    /\ fit_transform (numeric_columns df) = Some normalized
    /\ length normalized = length df
    /\ scale_ (c params s)
       = (1 - 0) / handle_zeros_in_scale (data_range_ (c params s))
    /\ handle_zeros_in_scale (data_range_ (c params s)) == 1
    /\ Forall (fun nrow => c Q nrow == 0) normalized.
Proof.
  intros Hne Hc Hconst.
  destruct (fit_transform_cells df Hne)
    as (s & normalized & Hfit & Hrun & Hlen & Hs & Hcells).
  exists s, normalized. rewrite (Hs c Hc).
  split; [done|]. split; [done|]. split; [done|]. split; [reflexivity|].
  pose proof (constant_range_zero c df Hne Hconst) as Hrange.
  split.
  - unfold handle_zeros_in_scale, fit_column, data_range_.
    destruct (Qlt_le_dec _ _) as [_|Hbig]; [reflexivity|].
    pose proof ten_eps_bounds. lra.
  - apply Forall_forall. intros nrow Hn.
    apply list_elem_of_lookup in Hn as [i Hi].
    assert (i < length df)%nat as Hlt
      by (rewrite <- Hlen; eauto using lookup_lt_Some).
    destruct (lookup_lt_is_Some_2 df i Hlt) as [row Hrow].
    destruct (Hcells i row Hrow) as (nrow' & Hi' & Hcell).
    assert (nrow' = nrow) as -> by congruence.
    rewrite (Hcell c Hc). apply transform_cell_constant; [|done].
    apply float_column_In, list_elem_of_In. eauto using list_elem_of_lookup_2.
Qed.

Lemma C5_witness :
  exists s normalized,
    fit (numeric_columns example_df) = Some s
    /\ fit_transform (numeric_columns example_df) = Some normalized
    /\ length normalized = 3%nat
    /\ scale_ (Numeric.ORG_count s)
       = (1 - 0) / handle_zeros_in_scale (data_range_ (Numeric.ORG_count s))
    /\ handle_zeros_in_scale (data_range_ (Numeric.ORG_count s)) == 1
    /\ Forall (fun nrow => Numeric.ORG_count nrow == 0) normalized.
Proof.
  apply (C5_constant_column_scales_to_0 example_df (@Numeric.ORG_count)).
  - discriminate.
  - do 5 right. by left.
  - intros row row' Hrow Hrow'. simpl in Hrow, Hrow'.
    destruct Hrow as [<-|[<-|[<-|[]]]]; destruct Hrow' as [<-|[<-|[<-|[]]]];
      reflexivity.
Defined.

End ScalerClaims.

(** * Facts about stage 4a *)

Lemma class_indices_spec (y : list bool) (c : bool) (i : nat) :
  In i (class_indices y c) <-> y !! i = Some c.
Proof.
  unfold class_indices. rewrite in_map_iff. split.
  - intros ([j b] & <- & Hin). apply filter_In in Hin as [Hin Hb]. simpl in *.
    apply Bool.eqb_prop in Hb as ->.
    apply list_elem_of_In, list_elem_of_lookup in Hin as [k Hk].
    apply lookup_zip_Some in Hk as [Hj Hy].
    apply lookup_seq in Hj as [-> _]. done.
  - intros Hi. exists (i, c). split; [done|]. apply filter_In. split.
    + apply list_elem_of_In, list_elem_of_lookup. exists i.
      apply lookup_zip_Some. split; [|done].
      apply lookup_seq. split; [done|]. eauto using lookup_lt_Some.
    + simpl. by destruct c.
Qed.

Lemma class_indices_length_from (y : list bool) (c : bool) (k : nat) :
  length (List.filter (fun ib : nat * bool => Bool.eqb (snd ib) c)
            (zip (seq k (length y)) y))
  = count_label c y.
Proof.
  unfold count_label. revert k. induction y as [|b y IH]; intros k; [done|].
  simpl. destruct b, c; simpl; by rewrite IH.
Qed.

Lemma class_indices_length (y : list bool) (c : bool) :
  length (class_indices y c) = count_label c y.
Proof.
  unfold class_indices. rewrite length_map. apply class_indices_length_from.
Qed.

Lemma count_label_total (y : list bool) :
  (count_label false y + count_label true y = length y)%nat.
Proof.
  unfold count_label. induction y as [|[] y IH]; simpl; lia.
Qed.

Lemma take_clip_length a indices :
  length (take_clip a indices) = length indices.
Proof. unfold take_clip. apply length_map. Qed.

Lemma take_clip_In a indices j :
  a <> [] -> In j (take_clip a indices) -> In j a.
Proof.
  unfold take_clip. intros Hne (k & <- & _)%in_map_iff.
  apply nth_In. destruct a; [done|]. simpl. lia.
Qed.

Lemma safe_indexing_Some {A} (a : list A) (indices : list nat) :
  Forall (fun i => (i < length a)%nat) indices ->
  exists l, safe_indexing a indices = Some l
            /\ Forall2 (fun i x => a !! i = Some x) indices l.
Proof.
  intros H. assert (is_Some (safe_indexing a indices)) as [l Hl].
  { apply mapM_is_Some. eapply Forall_impl; [exact H|].
    intros i Hi. by apply lookup_lt_is_Some_2. }
  exists l. split; [done|]. by apply mapM_Some in Hl.
Qed.

Lemma safe_indexing_length {A} (a : list A) indices l :
  safe_indexing a indices = Some l -> length l = length indices.
Proof. intros H%mapM_Some. symmetry. by eapply Forall2_length. Qed.

(** The labels drawn at positions of one class are all of that class. *)
Lemma labels_of_class (y : list bool) (c : bool) indices :
  Forall (fun i => y !! i = Some c) indices ->
  omap (fun i => y !! i) indices = repeat c (length indices).
Proof.
  induction 1 as [|i indices Hi _ IH]; [done|]. simpl. rewrite Hi. simpl.
  f_equal. exact IH.
Qed.

Lemma safe_indexing_omap {A} (a : list A) indices l :
  safe_indexing a indices = Some l -> l = omap (fun i => a !! i) indices.
Proof.
  intros H%mapM_Some. induction H as [|i x indices l Hi _ IH]; [done|].
  simpl. rewrite Hi. simpl. f_equal. exact IH.
Qed.

Lemma count_label_repeat (c c' : bool) (n : nat) :
  count_label c (repeat c' n) = if Bool.eqb c c' then n else 0%nat.
Proof.
  unfold count_label. induction n as [|n IH]; simpl.
  - by destruct (Bool.eqb c c').
  - destruct (Bool.eqb c c'); simpl; by rewrite IH.
Qed.

Lemma count_label_app (c : bool) (y1 y2 : list bool) :
  count_label c (y1 ++ y2) = (count_label c y1 + count_label c y2)%nat.
Proof. unfold count_label. by rewrite List.filter_app, length_app. Qed.

Lemma count_label_Permutation (c : bool) (y1 y2 : list bool) :
  Permutation y1 y2 -> count_label c y1 = count_label c y2.
Proof.
  unfold count_label. induction 1; simpl; try destruct (Bool.eqb c _);
    try destruct (Bool.eqb c _); simpl; congruence.
Qed.

Lemma unique_both (y : list bool) :
  (0 < count_label false y)%nat -> (0 < count_label true y)%nat ->
  unique y = [false; true].
Proof.
  assert (forall c, (0 < count_label c y)%nat -> existsb (Bool.eqb c) y = true)
    as H.
  { intros c. unfold count_label. induction y as [|b y IH]; simpl; [lia|].
    destruct (Bool.eqb c b); simpl; auto. }
  intros Hf Ht. unfold unique. simpl. by rewrite (H false Hf), (H true Ht).
Qed.

(** The train and test slices of one class hold positions of that class. *)
Lemma class_slices (y : list bool) (c : bool) (p : list nat) (n t : nat) :
  length p = length (class_indices y c) ->
  (0 < length (class_indices y c))%nat ->
  (n + t <= length (class_indices y c))%nat ->
  let q := take_clip (class_indices y c) p in
  Forall (fun i => y !! i = Some c) (take n q)
  /\ length (take n q) = n
  /\ Forall (fun i => y !! i = Some c) (take t (drop n q))
  /\ length (take t (drop n q)) = t.
Proof.
  intros Hp Hpos Hnt q.
  assert (Forall (fun i => y !! i = Some c) q) as Hq.
  { apply Forall_forall. intros i Hi%list_elem_of_In.
    apply class_indices_spec. eapply take_clip_In; [|exact Hi].
    intros E. rewrite E in Hpos. simpl in Hpos. lia. }
  assert (length q = length (class_indices y c)) as Hlen
    by (unfold q; by rewrite take_clip_length).
  split; [by apply Forall_take|].
  split; [rewrite length_take; lia|].
  split; [by apply Forall_take, Forall_drop|].
  rewrite length_take, length_drop. lia.
Qed.

Section SplitFacts.
Context {rs : RandomState}.

Lemma approximate_mode_40_60 s : approximate_mode [40; 60] 80 s = ([32; 48], s).
Proof. reflexivity. Qed.

Lemma approximate_mode_8_12 s : approximate_mode [8; 12] 20 s = ([8; 12], s).
Proof. reflexivity. Qed.

(** The positions the split draws for 100 labels of which 60 are [true]:
    32 and 48 of the two classes for training, 8 and 12 for testing. *)
Lemma stratified_shuffle_split_100_60 (y : list bool) (random_state : Z) :
  permutes rs ->
  length y = 100%nat -> count_label true y = 60%nat ->
  exists train test train_f train_t test_f test_t,
    stratified_shuffle_split y 80 20 random_state = Some (train, test)
    /\ Permutation train (train_f ++ train_t)
    /\ Permutation test (test_f ++ test_t)
    /\ Forall (fun i => y !! i = Some false) train_f
    /\ Forall (fun i => y !! i = Some true) train_t
    /\ Forall (fun i => y !! i = Some false) test_f
    /\ Forall (fun i => y !! i = Some true) test_t
    /\ length train_f = 32%nat /\ length train_t = 48%nat
    /\ length test_f = 8%nat /\ length test_t = 12%nat.
Proof.
  intros Hrng Hy Ht.
  assert (count_label false y = 40%nat) as Hf
    by (pose proof (count_label_total y); lia).
  unfold stratified_shuffle_split. rewrite (unique_both y) by lia.
  cbn [List.map length]. rewrite !class_indices_length, Hf, Ht.
  change (existsb _ [Z.of_nat 40; Z.of_nat 60]) with false.
  cbn [Z.of_nat Z.ltb Z.compare Pos.of_succ_nat Pos.succ Pos.compare
       Pos.compare_cont].
  unfold bind at 1. rewrite approximate_mode_40_60.
  change (zip_with Z.sub [Z.of_nat 40; Z.of_nat 60] [32; 48]) with [8; 12].
  unfold bind at 1. rewrite approximate_mode_8_12.
  cbn [zip_with draw_classes]. unfold bind, ret.
  set (s0 := check_random_state random_state).
  pose proof (Hrng (seq 0 (length (class_indices y false))) s0) as Hpf.
  destruct (permutation (seq 0 (length (class_indices y false))) s0)
    as [pf s1]. simpl in Hpf.
  pose proof (Hrng (seq 0 (length (class_indices y true))) s1) as Hpt.
  destruct (permutation (seq 0 (length (class_indices y true))) s1)
    as [pt s2]. simpl in Hpt.
  apply Permutation_length in Hpf, Hpt. rewrite length_seq in Hpf, Hpt.
  destruct (class_slices y false pf 32 8 Hpf)
    as (Htrf & Hltrf & Htef & Hltef);
    [rewrite class_indices_length; lia | rewrite class_indices_length; lia |].
  destruct (class_slices y true pt 48 12 Hpt)
    as (Htrt & Hltrt & Htet & Hltet);
    [rewrite class_indices_length; lia | rewrite class_indices_length; lia |].
  cbn [fst snd Z.to_nat Pos.to_nat Pos.iter_op Nat.add] in *.
  rewrite !app_nil_r.
  match goal with
  | |- context [permutation ?l s2] =>
      pose proof (Hrng l s2) as Htrain;
      destruct (permutation l s2) as [train s3]
  end.
  match goal with
  | |- context [permutation ?l s3] =>
      pose proof (Hrng l s3) as Htest;
      destruct (permutation l s3) as [test s4]
  end.
  simpl in Htrain, Htest.
  eexists train, test, _, _, _, _. split; [reflexivity|].
  split; [exact Htrain|]. split; [exact Htest|].
  repeat split; done.
Qed.

Lemma labels_at_split (y : list bool) indices part_f part_t labels :
  Permutation indices (part_f ++ part_t) ->
  Forall (fun i => y !! i = Some false) part_f ->
  Forall (fun i => y !! i = Some true) part_t ->
  safe_indexing y indices = Some labels ->
  count_label true labels = length part_t
  /\ length labels = (length part_f + length part_t)%nat.
Proof.
  intros Hperm Hf Ht Hlabels. split.
  - rewrite (safe_indexing_omap _ _ _ Hlabels).
    rewrite (count_label_Permutation true _ _
               (omap_Permutation (fun i => y !! i) _ _ Hperm)).
    rewrite omap_app, count_label_app.
    rewrite (labels_of_class y false part_f Hf).
    rewrite (labels_of_class y true part_t Ht).
    by rewrite !count_label_repeat.
  - rewrite (safe_indexing_length _ _ _ Hlabels).
    by rewrite (Permutation_length Hperm), length_app.
Qed.

Lemma positions_in_range (y : list bool) indices part_f part_t :
  Permutation indices (part_f ++ part_t) ->
  Forall (fun i => y !! i = Some false) part_f ->
  Forall (fun i => y !! i = Some true) part_t ->
  Forall (fun i => (i < length y)%nat) indices.
Proof.
  intros Hperm Hf Ht. rewrite Hperm. apply Forall_app. split.
  - eapply Forall_impl; [exact Hf|]. intros i Hi. simpl in *.
    eapply lookup_lt_Some, Hi.
  - eapply Forall_impl; [exact Ht|]. intros i Hi. simpl in *.
    eapply lookup_lt_Some, Hi.
Qed.

(** C9.  The split is stratified 80/20 with the seed fixed in the call: of
    100 records of which 60 are labelled [true], whatever the records and
    whatever the generator draws, 80 go to the train partition and 20 to
    the test partition, and the test partition holds 12 [true] labels
    (within one of 12), the train partition the other 48. *)
Theorem C9_stratified_split_keeps_label_ratio {A} (X : list A)
    (y : list bool) :
  permutes rs ->
  length X = 100%nat -> length y = 100%nat -> count_label true y = 60%nat ->
  exists X_train X_test y_train y_test,
    cell7 X y = Some (X_train, X_test, y_train, y_test)
    /\ length X_train = 80%nat /\ length X_test = 20%nat
    /\ length y_train = 80%nat /\ length y_test = 20%nat
    /\ count_label true y_test = 12%nat
    /\ (11 <= count_label true y_test <= 13)%nat
    /\ count_label true y_train = 48%nat.
Proof.
  intros Hrng HX Hy Ht.
  destruct (stratified_shuffle_split_100_60 y 42 Hrng Hy Ht)
    as (train & test & train_f & train_t & test_f & test_t & Hsplit
        & Htrain & Htest & Htrf & Htrt & Htef & Htet
        & Hltrf & Hltrt & Hltef & Hltet).
  pose proof (positions_in_range y train _ _ Htrain Htrf Htrt) as Hrtrain.
  pose proof (positions_in_range y test _ _ Htest Htef Htet) as Hrtest.
  destruct (safe_indexing_Some y train Hrtrain) as (y_train & Hy_train & _).
  destruct (safe_indexing_Some y test Hrtest) as (y_test & Hy_test & _).
  rewrite Hy, <- HX in Hrtrain, Hrtest.
  destruct (safe_indexing_Some X train Hrtrain) as (X_train & HX_train & _).
  destruct (safe_indexing_Some X test Hrtest) as (X_test & HX_test & _).
  exists X_train, X_test, y_train, y_test.
  destruct (labels_at_split y train _ _ _ Htrain Htrf Htrt Hy_train)
    as [Hctrain Hlen_train].
  destruct (labels_at_split y test _ _ _ Htest Htef Htet Hy_test)
    as [Hctest Hlen_test].
  split.
  - unfold cell7, train_test_split. rewrite HX, Hy.
    change (validate_shuffle_split 100 0.2) with (Some (80, 20)).
    cbn [negb Nat.eqb mbind option_bind]. rewrite Hsplit.
    cbn [mbind option_bind].
    by rewrite HX_train, HX_test, Hy_train, Hy_test.
  - rewrite (safe_indexing_length _ _ _ HX_train).
    rewrite (safe_indexing_length _ _ _ HX_test).
    rewrite (Permutation_length Htrain), (Permutation_length Htest).
    rewrite !length_app. lia.
Qed.

End SplitFacts.


(** * Facts about stage 4b *)

Lemma count_vocab_out_of_vocabulary (v : TfidfVectorizer.t) (doc : string) :
  out_of_vocabulary v doc -> count_vocab v doc = ∅.
Proof.
  unfold out_of_vocabulary, count_vocab.
  generalize (analyze doc). intros features Hoov.
  induction features as [|feature features IH]; [done|].
  simpl. rewrite (Hoov feature) by (by left). apply IH.
  intros g Hg. apply Hoov. by right.
Qed.

Lemma toarray_empty `{TfidfLibrary} (n_features : nat) :
  toarray n_features ∅ = repeat 0%Q n_features.
Proof.
  unfold toarray. generalize 0%nat.
  induction n_features as [|n IH]; intros k; [done|].
  simpl. rewrite lookup_empty. simpl. f_equal. apply IH.
Qed.

Section VectorizerFacts.
Context {lib : TfidfLibrary}.

Lemma transform_doc_length v doc :
  length (transform_doc v doc) = length (TfidfVectorizer.idf_ v).
Proof. unfold transform_doc, toarray. by rewrite length_map, length_seq. Qed.

(** A document with no n-gram in the vocabulary is transformed, without an
    error, to the row of zeros. *)
Lemma transform_doc_out_of_vocabulary v doc :
  out_of_vocabulary v doc ->
  transform_doc v doc = repeat 0%Q (length (TfidfVectorizer.idf_ v)).
Proof.
  intros Hoov. unfold transform_doc.
  rewrite (count_vocab_out_of_vocabulary v doc Hoov).
  unfold scale_by_idf. rewrite map_imap_empty.
  unfold normalize_l2, squared_norm. rewrite map_fold_empty.
  change (Qeq_bool 0 0) with true. cbn iota. apply toarray_empty.
Qed.


Lemma cell8_Some X_train X_test X_train_combined X_test_combined :
  cell8 X_train X_test = Some (X_train_combined, X_test_combined) <->
  exists vectorizer,
    fit (map Row.tokens X_train) = Some vectorizer
    /\ X_train <> [] /\ X_test <> []
    /\ X_train_combined
       = hstack (map (transform_doc vectorizer) (map Row.tokens X_train))
           (to_numpy X_train)
    /\ X_test_combined
       = hstack (map (transform_doc vectorizer) (map Row.tokens X_test))
           (to_numpy X_test).
Proof.
  unfold cell8. split.
  - intros Hrun.
    destruct (fit (map Row.tokens X_train)) as [v|] eqn:Hfit; [|done].
    destruct X_train as [|row X_train]; [done|].
    destruct X_test as [|row' X_test]; [done|].
    simpl in Hrun. injection Hrun as <- <-. by exists v.
  - intros (v & -> & Htrain & Htest & -> & ->).
    destruct X_train as [|row X_train]; [done|].
    by destruct X_test as [|row' X_test].
Qed.


End VectorizerFacts.
(** * Facts about cells 5 to 7 as a whole *)

Section NotebookFacts.
Context {sp : Spacy}.
Import MinMaxScaler.

(** Scaling keeps the rows in place: row [i] of the scaled table has the
    tokens of row [i] of the table, and its cells are those of row [i]
    scaled with the one scaler fitted on the whole table. *)
Lemma scaled_table_rows processed_texts scaled :
  scaled_table processed_texts = Some scaled ->
  exists df s,
    DataFrame processed_texts = Some df
    /\ fit (numeric_columns df) = Some s
    /\ (forall c, In c Numeric.columns ->
                  c params s = fit_column (float_column c df))
    /\ Forall2 (fun row nrow =>
                  Row.tokens nrow = Row.tokens row
                  /\ forall c, In c Numeric.columns ->
                       c Q (Row.numeric nrow)
                       = transform_cell (c params s)
                           (inject_Z (c Z (Row.numeric row))))
         df scaled.
Proof.
  unfold scaled_table. intros Hrun.
  destruct (DataFrame processed_texts) as [df|] eqn:Hdf; [|done].
  simpl in Hrun.
  destruct df as [|row0 df0] eqn:Edf; [done|]. rewrite <- Edf in *.
  destruct (fit_transform_cells df)
    as (s & normalized & Hfit & Hft & Hlen & Hs & Hcells); [by subst|].
  rewrite Hft in Hrun. simpl in Hrun. injection Hrun as <-.
  exists df, s. split; [done|]. split; [done|]. split; [done|].
  apply Forall2_same_length_lookup. split.
  - unfold assign_columns. rewrite length_zip_with. lia.
  - intros i row nrow Hrow Hnrow.
    destruct (Hcells i row Hrow) as (n & Hn & Hcell).
    unfold assign_columns in Hnrow.
    rewrite lookup_zip_with, Hrow in Hnrow. simpl in Hnrow.
    rewrite Hn in Hnrow. simpl in Hnrow. injection Hnrow as <-. simpl.
    split; [done|]. intros c Hc. by rewrite (Hcell c Hc), (Hs c Hc).
Qed.

Lemma scaled_table_is_Some processed_texts df :
  DataFrame processed_texts = Some df -> df <> [] ->
  is_Some (scaled_table processed_texts).
Proof.
  intros Hdf Hne. unfold scaled_table. rewrite Hdf. simpl.
  destruct (fit_transform_cells df Hne) as (s & normalized & _ & -> & _).
  by eexists.
Qed.

(** The scaler's minimum and maximum of a column are the least and the
    greatest cell over all the rows of the table. *)
Lemma fit_column_extrema (c : Numeric.column) (df : list (Row.t Z)) :
  df <> [] ->
  let p := fit_column (float_column c df) in
  (forall row, In row df ->
     (data_min_ p <= inject_Z (c Z (Row.numeric row)) <= data_max_ p)%Q)
  /\ (exists row, In row df
                  /\ (data_min_ p == inject_Z (c Z (Row.numeric row)))%Q)
  /\ (exists row, In row df
                  /\ (data_max_ p == inject_Z (c Z (Row.numeric row)))%Q).
Proof.
  intros Hne p. unfold p, fit_column. simpl.
  assert (float_column c df <> []) as Hcol by (destruct df; [done | discriminate]).
  split; [|split].
  - intros row Hrow. pose proof (float_column_In c df row Hrow) as Hin.
    split; [by apply nanmin_le | by apply nanmax_ge].
  - destruct (nanmin_attained _ Hcol) as (y & Hy & Heq).
    apply float_column_attained in Hy as (row & Hrow & ->). by exists row.
  - destruct (nanmax_attained _ Hcol) as (y & Hy & Heq).
    apply float_column_attained in Hy as (row & Hrow & ->). by exists row.
Qed.

Section SplitRows.
Context {rs : RandomState}.

(** The split pairs by position: [X_train] and [y_train] are [X] and [y]
    read at the same positions, and so are [X_test] and [y_test]. *)
Lemma train_test_split_positions {A} (X : list A) (y : list bool)
    test_size random_state X_train X_test y_train y_test :
  train_test_split X y test_size random_state
  = Some (X_train, X_test, y_train, y_test) ->
  exists train test,
    Forall2 (fun i x => X !! i = Some x) train X_train
    /\ Forall2 (fun i b => y !! i = Some b) train y_train
    /\ Forall2 (fun i x => X !! i = Some x) test X_test
    /\ Forall2 (fun i b => y !! i = Some b) test y_test.
Proof.
  unfold train_test_split. intros Hrun.
  destruct (negb _); [done|].
  destruct (validate_shuffle_split _ _) as [[n_train n_test]|]; [|done].
  simpl in Hrun.
  destruct (stratified_shuffle_split _ _ _ _) as [[train test]|]; [|done].
  simpl in Hrun. unfold safe_indexing in Hrun.
  destruct (mapM (fun i => X !! i) train) as [a|] eqn:Ha; simpl in Hrun;
    [|done].
  destruct (mapM (fun i => X !! i) test) as [b|] eqn:Hb; simpl in Hrun;
    [|done].
  destruct (mapM (fun i => y !! i) train) as [c|] eqn:Hc; simpl in Hrun;
    [|done].
  destruct (mapM (fun i => y !! i) test) as [d|] eqn:Hd; simpl in Hrun;
    [|done].
  injection Hrun as <- <- <- <-.
  exists train, test. by rewrite <- !mapM_Some.
Qed.

(** C2.  The scaler is fitted once, on the whole feature table, before the
    split: both partitions hold rows of the table scaled with that one
    scaler, whose minimum and maximum of each of the eight columns are the
    least and the greatest cell over all the rows, the rows that end up in
    the test partition included; no second fit on the training rows takes
    place. *)
Theorem C2_scaler_is_fitted_on_the_whole_table csv completion_order
    X_train X_test y_train y_test :
  cells_5_to_7 csv completion_order
  = Some (X_train, X_test, y_train, y_test) ->
  let df := take 2000 csv in
  exists table s,
    DataFrame
      (as_completed completion_order
         (future_results (map Subset.review_combined df)
            (map Subset.days_since_release df)))
    = Some table
    /\ fit (numeric_columns table) = Some s
    /\ (forall c, In c Numeric.columns ->
          (forall row, In row table ->
             (data_min_ (c params s) <= inject_Z (c Z (Row.numeric row))
              <= data_max_ (c params s))%Q)
          /\ (exists row, In row table
                /\ (data_min_ (c params s)
                    == inject_Z (c Z (Row.numeric row)))%Q)
          /\ (exists row, In row table
                /\ (data_max_ (c params s)
                    == inject_Z (c Z (Row.numeric row)))%Q))
    /\ (forall nrow, In nrow (X_train ++ X_test) ->
          exists row,
            In row table
            /\ Row.tokens nrow = Row.tokens row
            /\ forall c, In c Numeric.columns ->
                 c Q (Row.numeric nrow)
                 = transform_cell (c params s)
                     (inject_Z (c Z (Row.numeric row)))).
Proof.
  intros Hrun df. unfold cells_5_to_7, cell5, cell7 in Hrun.
  fold df in Hrun.
  destruct (scaled_table _) as [scaled|] eqn:Hscaled; [|done].
  simpl in Hrun.
  destruct (scaled_table_rows _ _ Hscaled) as (table & s & Hdf & Hfit & Hs & Hrows).
  exists table, s. split; [done|]. split; [done|].
  assert (table <> []) as Hne.
  { intros ->. unfold fit in Hfit. simpl in Hfit. done. }
  split.
  - intros c Hc. rewrite (Hs c Hc). by apply fit_column_extrema.
  - destruct (train_test_split_positions _ _ _ _ _ _ _ _ Hrun)
      as (train & test & Htrain & _ & Htest & _).
    assert (forall nrow, In nrow scaled ->
              exists row, In row table
                /\ Row.tokens nrow = Row.tokens row
                /\ forall c, In c Numeric.columns ->
                     c Q (Row.numeric nrow)
                     = transform_cell (c params s)
                         (inject_Z (c Z (Row.numeric row)))) as Hscaled_rows.
    { intros nrow Hn. destruct (Forall2_In_r _ _ _ _ Hrows Hn) as (row & Hrow & H).
      exists row. tauto. }
    intros nrow Hn. apply Hscaled_rows. apply in_app_or in Hn as [Hn|Hn].
    + destruct (Forall2_In_r _ _ _ _ Htrain Hn) as (i & _ & Hi).
      apply list_elem_of_In. eauto using list_elem_of_lookup_2.
    + destruct (Forall2_In_r _ _ _ _ Htest Hn) as (i & _ & Hi).
      apply list_elem_of_In. eauto using list_elem_of_lookup_2.
Qed.

End SplitRows.

(** C1, on the code.  The results are collected in completion order and
    the labels stay in submission order; nothing carried with a result
    says which record it came from.  When the second task of
    [example_csv] finishes first, the first row of the features handed to
    the split is the one of the second record (its tokens, its days), and
    the first label is the one of the first record. *)
Theorem C1_features_meet_the_label_of_another_record :
  exists X y nrow s,
    cell5 example_csv example_completion_order = Some (X, y)
    /\ X !! 0%nat = Some nrow
    /\ Row.tokens nrow = cleaned (nlp "the killer is the butler .")
    /\ Numeric.Days (Row.numeric nrow)
       = transform_cell (Numeric.Days s) (inject_Z 3)
    /\ y !! 0%nat = Some false
    /\ example_csv !! 1%nat
       = Some (Subset.mk 3 "the killer is the butler ." true)
    /\ example_csv !! 0%nat = Some (Subset.mk 120 "a great movie ." false).
Proof.
  unfold cell5.
  set (texts := map Subset.review_combined (take 2000 example_csv)).
  set (days := map Subset.days_since_release (take 2000 example_csv)).
  destruct (DataFrame_as_completed texts days example_completion_order)
    as (df & Hdf & Hrows).
  { repeat constructor. }
  assert (df <> []) as Hne.
  { intros ->. apply Forall2_length in Hrows. discriminate Hrows. }
  destruct (scaled_table_is_Some _ df Hdf Hne) as [scaled Hscaled].
  destruct (scaled_table_rows _ _ Hscaled) as (df' & s & Hdf' & _ & _ & Hscale).
  assert (df' = df) as -> by congruence.
  inversion Hrows as [|i row order df_rest (text & d & Ht & Hd & Hrow) _ Eo Edf].
  subst df. inversion Hscale as [|row' nrow df1 scaled_rest [Htok Hcell] _ E1 E2].
  subst. injection Ht as <-. injection Hd as <-.
  exists (nrow :: scaled_rest), (map Subset.is_spoiler (take 2000 example_csv)),
    nrow, s.
  rewrite Hscaled. split; [done|]. split; [done|].
  split; [by rewrite Htok|].
  split; [apply (Hcell (@Numeric.Days)); by left|].
  repeat split; reflexivity.
Qed.

End NotebookFacts.
(** * The theorems on the sample data *)

(** The example of the specification: ["2020-01-01"] passes the filter,
    ["2020-1-1"] does not, and only the review of the first movie is
    merged. *)
Lemma C6_witness :
  In movie_valid (filter_valid_release_dates [movie_valid; movie_short])
  /\ ~ In movie_short (filter_valid_release_dates [movie_valid; movie_short])
  /\ exists merged,
       @merged_df iso_pandas example_reviews [movie_valid; movie_short]
       = Some merged
       /\ Forall (fun row => Merged.movie_id row = "tt0000001"%string) merged.
Proof.
  destruct (@C6_filter_keeps_exactly_length_10 iso_pandas) as [Hfilter Hrows].
  split; [|split].
  - apply Hfilter. split; [by left | reflexivity].
  - intros [_ Hlen]%Hfilter. discriminate Hlen.
  - eexists. split; [vm_compute; reflexivity|].
    apply Forall_forall. intros row Hrow%list_elem_of_In.
    destruct (Hrows example_reviews [movie_valid; movie_short] _ row
                eq_refl Hrow) as (m & Hm & Hlen & <- & _).
    destruct Hm as [<-|[<-|[]]]; [reflexivity | discriminate Hlen].
Defined.

Lemma C7_witness :
  dates_parse (pd := iso_pandas) example_reviews [movie_valid; movie_short]
  /\ exists merged,
       @merged_df iso_pandas example_reviews [movie_valid; movie_short]
       = Some merged
       /\ Forall (fun row => Merged.movie_id row <> "tt0000003"%string) merged
       /\ exists row,
            In row merged
            /\ Merged.movie_id row = "tt0000001"%string
            /\ Merged.review_text row = "a great twist"%string.
Proof.
  destruct (@C7_merge_is_inner_join iso_pandas) as (_ & Hinner & Hruns).
  assert (dates_parse (pd := iso_pandas) example_reviews
            [movie_valid; movie_short]) as Hparse.
  { split.
    - intros r Hr. simpl in Hr.
      destruct Hr as [<-|[<-|[<-|[]]]]; vm_compute; eauto.
    - intros m Hm. vm_compute in Hm. destruct Hm as [<-|[]].
      vm_compute. eauto. }
  split; [exact Hparse|].
  destruct (Hruns _ _ Hparse) as [merged Hrun]. exists merged.
  split; [exact Hrun|].
  destruct (Hinner _ _ _ Hrun) as (_ & Hdropped & Hkept). split.
  - apply Forall_forall. intros row Hrow%list_elem_of_In.
    apply (Hdropped
             (Review.mk "tt0000003" "2020-01-11" "lost" "no such movie" true));
      [do 2 right; by left | | exact Hrow].
    vm_compute. intros [E|[]]. discriminate E.
  - destruct (Hkept
                (Review.mk "tt0000001" "2020-01-11" "great" "a great twist"
                   false) movie_valid)
      as (row & Hrow & Hid & _ & Htext & _);
      [by left | by left | reflexivity |].
    by exists row.
Defined.

(** One format for the whole column: a date written [YYYY/MM/DD] is parsed
    in a column of its own, but not below a first cell written
    [YYYY-MM-DD], and cell 3 raises on such a column of review dates. *)
Example mixed_date_formats_raise :
  is_Some (@to_datetime iso_pandas ["2020/01/12"%string] "2020/01/12")
  /\ @to_datetime iso_pandas ["2020-01-11"; "2020/01/12"]%string "2020/01/12"
     = None
  /\ @merged_df iso_pandas
       [ Review.mk "tt0000001" "2020-01-11" "great" "a great twist" false;
         Review.mk "tt0000001" "2020/01/12" "dull" "nothing happens" false ]
       [movie_valid]
     = None.
Proof. repeat split; vm_compute; eauto. Qed.

Lemma C10_witness :
  is_completion_order example_completion_order 10
  /\ exists df,
       DataFrame
         (as_completed example_completion_order
            (@future_results lexicon_spacy
               (map Subset.review_combined example_csv)
               (map Subset.days_since_release example_csv)))
       = Some df
       /\ (Row.tokens <$> df !! 0%nat) = Some "killer butler"%string
       /\ (Numeric.Days ∘ Row.numeric <$> df !! 0%nat) = Some 3.
Proof.
  assert (is_completion_order example_completion_order 10) as Horder
    by apply perm_swap.
  split; [exact Horder|].
  destruct (@C10_days_stay_with_tokens lexicon_spacy
              (map Subset.review_combined example_csv)
              (map Subset.days_since_release example_csv)
              example_completion_order Horder) as (df & Hdf & Hrows & _).
  exists df. split; [exact Hdf|].
  unfold example_completion_order in Hrows.
  inversion Hrows
    as [|i row order rest (text & days & Ht & Hd & Hdays & Htok) _ Eorder Edf].
  clear Eorder. injection Ht as <-. injection Hd as <-.
  split; simpl; f_equal; [rewrite Htok; reflexivity | exact Hdays].
Defined.

Lemma C2_witness :
  exists X_train X_test y_train y_test,
    @cells_5_to_7 lexicon_spacy reversing_rng example_csv
      example_completion_order
    = Some (X_train, X_test, y_train, y_test)
    /\ exists table s,
         MinMaxScaler.fit (numeric_columns table) = Some s
         /\ length table = 10%nat
         /\ Forall (fun nrow =>
                      exists row,
                        In row table
                        /\ Numeric.Days (Row.numeric nrow)
                           = MinMaxScaler.transform_cell (Numeric.Days s)
                               (inject_Z (Numeric.Days (Row.numeric row))))
              X_test.
Proof.
  eexists _, _, _, _. split; [vm_compute; reflexivity|].
  edestruct (@C2_scaler_is_fitted_on_the_whole_table lexicon_spacy
               reversing_rng example_csv example_completion_order)
    as (table & s & Hdf & Hfit & _ & Hrows); [vm_compute; reflexivity|].
  exists table, s. split; [exact Hfit|]. split.
  - vm_compute in Hdf. injection Hdf as <-. reflexivity.
  - apply Forall_forall. intros nrow Hn%list_elem_of_In.
    destruct (Hrows nrow) as (row & Hrow & _ & Hcell);
      [apply in_or_app; right; exact Hn|].
    exists row. split; [exact Hrow|]. apply (Hcell (@Numeric.Days)). by left.
Defined.

Lemma C9_witness :
  permutes reversing_rng
  /\ count_label true example_labels = 60%nat
  /\ exists X_train X_test y_train y_test,
       @cell7 reversing_rng nat (seq 0 100) example_labels
       = Some (X_train, X_test, y_train, y_test)
       /\ length X_test = 20%nat
       /\ count_label true y_test = 12%nat.
Proof.
  assert (permutes reversing_rng) as Hrng.
  { intros l s. simpl. symmetry. apply Permutation_rev. }
  split; [exact Hrng|]. split; [reflexivity|].
  destruct (@C9_stratified_split_keeps_label_ratio reversing_rng nat
              (seq 0 100) example_labels Hrng eq_refl eq_refl eq_refl)
    as (X_train & X_test & y_train & y_test & Hrun & _ & Hlen & _ & _ & Hc & _).
  exists X_train, X_test, y_train, y_test. auto.
Defined.


(** The counts are taken over all the tokens: in "the first part is great ."
    the stop words "first" and "part" count as an adjective and a noun,
    though only "great" is left in the token string. *)
Lemma C8_witness :
  @preprocess lexicon_spacy "the first part is great ." 45
  = [PInt 45; PInt 1; PInt 0; PInt 2; PInt 0; PInt 0; PInt 0; PInt 0;
     PStr "great"].
Proof.
  destruct (@C8_preprocess_returns_nine_features lexicon_spacy
              "the first part is great ." 45) as [-> _].
  reflexivity.
Defined.

(** The rest of the run on [example_csv]: with the second task finishing
    first, the test partition pairs the text of the spoiler with the label
    [false] and the other text with [true]; in submission order the pairs
    are the right ones. *)
Example swapped_completion_mislabels_the_test_rows :
  (r ← @cells_5_to_7 lexicon_spacy reversing_rng example_csv
         example_completion_order;
   Some (zip (map Row.tokens r.1.1.2) r.2))
  = Some [("great movie", true); ("killer butler", false)]%string
  /\ (r ← @cells_5_to_7 lexicon_spacy reversing_rng example_csv (seq 0 10);
      Some (zip (map Row.tokens r.1.1.2) r.2))
     = Some [("killer butler", true); ("great movie", false)]%string.
Proof. split; vm_compute; reflexivity. Qed.

(** On binary64 numbers the greatest cell of a column can be scaled to a
    number just above or just below 1. *)
Remark binary64_maximum_above_1 :
  Binary64.transform_cell
    (Binary64.fit_column (map Float64.of_Z [-48; -43])) (Float64.of_Z (-43))
  = 1.0000000000000018%float.
Proof. reflexivity. Qed.

Remark binary64_maximum_below_1 :
  Binary64.transform_cell
    (Binary64.fit_column (map Float64.of_Z [0; 49])) (Float64.of_Z 49)
  = 0.99999999999999989%float.
Proof. reflexivity. Qed.

(** A constant column is scaled to 0 on binary64 numbers too. *)
Remark binary64_constant_column_scales_to_0 :
  Binary64.transform_cell
    (Binary64.fit_column (map Float64.of_Z [7; 7; 7])) (Float64.of_Z 7)
  = 0%float.
Proof. reflexivity. Qed.

(** The sizes of the two partitions for the 2000 rows the notebook keeps. *)
Example split_sizes_2000 : validate_shuffle_split 2000 0.2 = Some (1600, 400).
Proof. reflexivity. Qed.

(** Five rows leave one row for testing, fewer than the two classes: the
    stratified split raises, whatever the generator. *)
Example split_of_five_rows_raises (rs : RandomState) :
  cell7 (seq 0 5) [true; true; true; false; false] = None.
Proof. reflexivity. Qed.

(** * Further facts about stage 1 *)

(** X1.  The date filter only removes rows: what it returns is a
    subsequence of the frame, in the same order; filtering again changes
    nothing; and a frame in which every date has ten characters is
    returned whole. *)
Theorem filter_valid_release_dates_sublist (dataframe : list (Movie.t string)) :
  sublist (filter_valid_release_dates dataframe) dataframe
  /\ filter_valid_release_dates (filter_valid_release_dates dataframe)
     = filter_valid_release_dates dataframe
  /\ (filter_valid_release_dates dataframe = dataframe <->
      Forall (fun row => String.length (Movie.release_date row) = 10%nat)
        dataframe).
Proof.
  unfold filter_valid_release_dates. split; [|split].
  - induction dataframe as [|row df IH]; simpl; [constructor|].
    destruct (_ =? _)%nat; by constructor.
  - induction dataframe as [|row df IH]; simpl; [done|].
    destruct (_ =? _)%nat eqn:E; simpl; [rewrite E; by f_equal | done].
  - induction dataframe as [|row df IH]; simpl; [split; [constructor | done]|].
    destruct (Nat.eqb_spec (String.length (Movie.release_date row)) 10)
      as [Hlen|Hlen].
    + split.
      * intros [= H]. constructor; [done | by apply IH].
      * intros [_ H]%Forall_cons. f_equal. by apply IH.
    + split.
      * intros H. exfalso.
        assert (length (List.filter
                  (fun row => (String.length (Movie.release_date row) =? 10)%nat)
                  df) <= length df)%nat as Hle by apply filter_length_le.
        rewrite H in Hle. simpl in Hle. lia.
      * intros [H _]%Forall_cons. done.
Qed.

Lemma matches_unique (r : Review.t Z) (df_movies : list (Movie.t Z)) :
  NoDup (map Movie.movie_id df_movies) ->
  (length (matches r df_movies) <= 1)%nat.
Proof.
  unfold matches. induction df_movies as [|m ms IH]; simpl; [lia|].
  intros [Hm Hms]%NoDup_cons.
  destruct (String.eqb_spec (Review.movie_id r) (Movie.movie_id m)) as [E|E];
    [|by apply IH].
  simpl. assert (List.filter
            (fun m0 => String.eqb (Review.movie_id r) (Movie.movie_id m0)) ms
          = []) as ->; [|simpl; lia].
  clear IH. induction ms as [|m' ms IH]; [done|]. simpl.
  apply NoDup_cons in Hms as [_ Hms].
  destruct (String.eqb_spec (Review.movie_id r) (Movie.movie_id m')) as [E'|E'].
  - exfalso. apply Hm. rewrite list_elem_of_In. simpl. left. congruence.
  - apply IH; [|done]. intros Hin. apply Hm. rewrite list_elem_of_In in *.
    by right.
Qed.

Lemma matches_matched (r : Review.t Z) (df_movies : list (Movie.t Z)) :
  matched df_movies r = negb (Nat.eqb (length (matches r df_movies)) 0).
Proof.
  unfold matched, matches. induction df_movies as [|m ms IH]; simpl; [done|].
  destruct (String.eqb _ _); simpl; [done | exact IH].
Qed.

(** X2.  When no two movies share an identifier, the merged table is the
    table of the reviews with the unmatched reviews left out: the matched
    reviews appear once each, in their order, and no review is repeated. *)
Theorem merge_keeps_the_matched_reviews (df_reviews : list (Review.t Z))
    (df_movies : list (Movie.t Z)) :
  NoDup (map Movie.movie_id df_movies) ->
  map review_of (merge df_reviews df_movies)
  = List.filter (matched df_movies) df_reviews
  /\ (length (merge df_reviews df_movies) <= length df_reviews)%nat.
Proof.
  intros Hids.
  assert (map review_of (merge df_reviews df_movies)
          = List.filter (matched df_movies) df_reviews) as Heq.
  { unfold merge. induction df_reviews as [|r rs IH]; simpl; [done|].
    rewrite map_app, IH, map_map. f_equal.
    pose proof (matches_unique r df_movies Hids) as Hle.
    rewrite matches_matched.
    destruct (matches r df_movies) as [|m [|m' ms]]; simpl in *; [done| |lia].
    by destruct r. }
  split; [exact Heq|].
  rewrite <- (length_map review_of), Heq. apply filter_length_le.
Qed.

Lemma merge_keeps_the_matched_reviews_witness :
  let df_reviews :=
    [ Review.mk "m1" 10 "a" "b" true; Review.mk "m9" 20 "c" "d" false;
      Review.mk "m2" 30 "e" "f" false ]%string in
  let df_movies := [ Movie.mk "m2" 5; Movie.mk "m1" 7 ]%string in
  NoDup (map Movie.movie_id df_movies)
  /\ map review_of (merge df_reviews df_movies)
     = [ Review.mk "m1" 10 "a" "b" true; Review.mk "m2" 30 "e" "f" false ]%string.
Proof.
  intros df_reviews df_movies.
  assert (NoDup (map Movie.movie_id df_movies)) as Hids.
  { apply NoDup_ListNoDup. repeat constructor; simpl; intros H;
      repeat destruct H as [H|H]; discriminate H || done. }
  split; [exact Hids|].
  destruct (merge_keeps_the_matched_reviews df_reviews df_movies Hids)
    as [-> _].
  reflexivity.
Defined.

Lemma string_length_app (s1 s2 : string) :
  String.length (s1 ++ s2) = (String.length s1 + String.length s2)%nat.
Proof. induction s1 as [|c s1 IH]; simpl; [done | by rewrite IH]. Qed.

(** X3.  The two derived columns of cell 4.  [days_since_release] is the
    number of whole days from the release to the review, rounded down: it
    is negative exactly when the review is dated before the release, and
    for two midnight timestamps it is the difference of the day numbers.
    [review_combined] is never empty: it has one character more than the
    summary and the text together. *)
Theorem subset_row_derived_columns (row : Merged.t) :
  let d := Subset.days_since_release (subset_row row) in
  let delta := Merged.review_date row - Merged.release_date row in
  d * ns_per_day <= delta < (d + 1) * ns_per_day
  /\ (d < 0 <-> Merged.review_date row < Merged.release_date row)
  /\ (forall a b,
        Merged.review_date row = a * ns_per_day ->
        Merged.release_date row = b * ns_per_day -> d = a - b)
  /\ String.length (Subset.review_combined (subset_row row))
     = S (String.length (Merged.review_summary row)
          + String.length (Merged.review_text row)).
Proof.
  intros d delta.
  assert (d = delta / ns_per_day) as -> by reflexivity.
  assert (0 < ns_per_day) as Hpos by reflexivity.
  pose proof (Z.div_mod delta ns_per_day ltac:(lia)) as Hdm.
  pose proof (Z.mod_pos_bound delta ns_per_day Hpos) as Hmod.
  assert (delta = Merged.review_date row - Merged.release_date row) as Hdelta
    by reflexivity.
  clearbody delta. set (q := delta / ns_per_day) in *. clearbody q.
  split; [lia|]. split; [|split].
  - split; intros H; nia.
  - intros a b Ha Hb. nia.
  - unfold subset_row. simpl. rewrite !string_length_app. simpl. lia.
Qed.

(** ** What makes cells 3 and 4 raise *)

Section JoinFilterRaises.
Context {pd : Pandas}.


End JoinFilterRaises.

(** * Further facts about stage 2 *)

Lemma count_tokens_nonneg p doc : 0 <= count_tokens p doc.
Proof. unfold count_tokens. lia. Qed.

Lemma count_tokens_zero p doc :
  count_tokens p doc = 0 <-> Forall (fun t => p t = false) doc.
Proof.
  unfold count_tokens. induction doc as [|t doc IH]; simpl.
  - split; [constructor | done].
  - destruct (p t) eqn:E; simpl.
    + split; [lia|]. intros [H _]%Forall_cons. congruence.
    + rewrite IH. split; [by constructor | by intros [_ H]%Forall_cons].
Qed.

Lemma count_by_lookup (doc : Doc) (a : attr_id) (k : Z) :
  count_by doc a !! k
  = if decide (count_tokens (fun t => get_token_attr t a =? k) doc = 0)
    then None
    else Some (count_tokens (fun t => get_token_attr t a =? k) doc).
Proof.
  unfold count_by.
  assert (forall acc : gmap Z Z,
            (forall n, acc !! k = Some n -> 0 < n) ->
            foldl (fun (counts : gmap Z Z) token =>
                     let v := get_token_attr token a in
                     <[v := default 0 (counts !! v) + 1]> counts) acc doc !! k
            = if decide (default 0 (acc !! k)
                         + count_tokens (fun t => get_token_attr t a =? k) doc
                         = 0)
              then None
              else Some (default 0 (acc !! k)
                         + count_tokens (fun t => get_token_attr t a =? k)
                             doc)) as H.
  { induction doc as [|t doc IH]; intros acc Hacc.
    - unfold count_tokens. simpl. rewrite Z.add_0_r.
      destruct (acc !! k) as [n|] eqn:E; simpl.
      + specialize (Hacc n eq_refl). by destruct (decide (n = 0)); [lia|].
      + done.
    - simpl foldl. rewrite IH.
      + unfold count_tokens. simpl List.filter.
        destruct (Z.eqb_spec (get_token_attr t a) k) as [->|Hne].
        * rewrite lookup_insert_eq. simpl length. simpl default.
          replace (default 0 (acc !! k) + 1
                   + Z.of_nat (length (List.filter
                        (fun t0 => get_token_attr t0 a =? k) doc)))
            with (default 0 (acc !! k)
                  + Z.of_nat (S (length (List.filter
                        (fun t0 => get_token_attr t0 a =? k) doc)))) by lia.
          done.
        * by rewrite lookup_insert_ne.
      + intros n. destruct (decide (get_token_attr t a = k)) as [->|Hne].
        * rewrite lookup_insert_eq. intros [= <-].
          destruct (acc !! k) as [m|] eqn:E; simpl; [|lia].
          specialize (Hacc m eq_refl). lia.
        * rewrite lookup_insert_ne by done. apply Hacc. }
  rewrite H; [|intros n; by rewrite lookup_empty].
  rewrite lookup_empty. simpl. done.
Qed.

(** X5.  A symbol that no token of the document carries is not a key of
    the dict [doc.count_by] returns, and a symbol that is a key counts at
    least one token; the lookup [.get(symbol, 0)] raises for neither and
    gives 0 exactly for the symbols that no token carries. *)
Theorem count_by_missing_symbol (doc : Doc) (a : attr_id) (k : Z) :
  (count_by doc a !! k = None
   <-> Forall (fun t => get_token_attr t a <> k) doc)
  /\ (forall n, count_by doc a !! k = Some n -> 0 < n)
  /\ (get (count_by doc a) k 0 = 0
      <-> Forall (fun t => get_token_attr t a <> k) doc).
Proof.
  assert (count_tokens (fun t => get_token_attr t a =? k) doc = 0
          <-> Forall (fun t => get_token_attr t a <> k) doc) as Hzero.
  { rewrite count_tokens_zero. apply Forall_iff. intros t.
    by rewrite Z.eqb_neq. }
  pose proof (count_tokens_nonneg (fun t => get_token_attr t a =? k) doc).
  unfold get. rewrite count_by_lookup.
  destruct (decide _) as [E|E]; simpl.
  - split; [|split]; [by rewrite <- Hzero | done | by rewrite <- Hzero].
  - split; [|split].
    + split; [done|]. intros H'%Hzero. done.
    + intros n [= <-]. lia.
    + by rewrite Hzero.
Qed.

Lemma count_tokens_disjoint_sum (ps : list (Token.t -> bool)) (doc : Doc) :
  (forall t, (length (List.filter (fun p => p t) ps) <= 1)%nat) ->
  fold_right Z.add 0 (map (fun p => count_tokens p doc) ps)
  <= Z.of_nat (length doc).
Proof.
  intros Hdisj. unfold count_tokens.
  induction doc as [|t doc IH].
  - clear Hdisj. induction ps as [|p ps IHp]; simpl in *; lia.
  - assert (fold_right Z.add 0
              (map (fun p => Z.of_nat (length (List.filter p (t :: doc)))) ps)
            = Z.of_nat (length (List.filter (fun p => p t) ps))
              + fold_right Z.add 0
                  (map (fun p => Z.of_nat (length (List.filter p doc))) ps))
      as ->.
    { clear. induction ps as [|p ps IHp]; [done|].
      cbn [map fold_right]. rewrite IHp. cbn [List.filter].
      destruct (p t); cbn [length]; lia. }
    specialize (Hdisj t). cbn [length]. lia.
Qed.

Section ExtractorBounds.
Context {sp : Spacy}.

(** X6.  The row the extractor yields has no negative count, and when the
    symbols are pairwise distinct the three part-of-speech counts together,
    and the four entity counts together, do not exceed the number of tokens
    of the parsed text: no token is counted twice in a group. *)
Theorem preprocess_counts_bounded (text : string) (days : Z) :
  distinct_symbols sp ->
  exists row,
    DataFrame_row (preprocess text days) = Some row
    /\ Numeric.Days (Row.numeric row) = days
    /\ Forall (fun c : Numeric.column => 0 <= c Z (Row.numeric row))
         (tail Numeric.columns)
    /\ Numeric.NOUN_count (Row.numeric row)
       + Numeric.VERB_count (Row.numeric row)
       + Numeric.ADJ_count (Row.numeric row)
       <= Z.of_nat (length (nlp text))
    /\ Numeric.PERSON_count (Row.numeric row)
       + Numeric.ORG_count (Row.numeric row)
       + Numeric.GPE_count (Row.numeric row)
       + Numeric.DATE_count (Row.numeric row)
       <= Z.of_nat (length (nlp text)).
Proof.
  intros (Hnv & Hna & Hva & Hent).
  exists (feature_row text days). split; [apply DataFrame_row_preprocess|].
  split; [done|]. split; [|split].
  - unfold Numeric.columns. simpl tail.
    repeat (constructor; [apply count_tokens_nonneg|]). constructor.
  - pose proof (count_tokens_disjoint_sum
                  [ (fun t => Token.pos t =? NOUN);
                    (fun t => Token.pos t =? VERB);
                    (fun t => Token.pos t =? ADJ) ] (nlp text)) as H.
    simpl in H. unfold feature_row. simpl.
    etransitivity; [|apply H]; [lia|]. intros t.
    destruct (Z.eqb_spec (Token.pos t) NOUN), (Z.eqb_spec (Token.pos t) VERB),
      (Z.eqb_spec (Token.pos t) ADJ); simpl; try lia; congruence.
  - pose proof (count_tokens_disjoint_sum
                  [ (fun t => Token.ent_type t =? PERSON);
                    (fun t => Token.ent_type t =? ORG);
                    (fun t => Token.ent_type t =? GPE);
                    (fun t => Token.ent_type t =? DATE) ] (nlp text)) as H.
    simpl in H. unfold feature_row. simpl.
    etransitivity; [|apply H]; [lia|]. intros t.
    apply NoDup_ListNoDup in Hent.
    inversion Hent as [|? ? H1 Hent1]; subst.
    inversion Hent1 as [|? ? H2 Hent2]; subst.
    inversion Hent2 as [|? ? H3 _]; subst. simpl in H1, H2, H3.
    destruct (Z.eqb_spec (Token.ent_type t) PERSON),
      (Z.eqb_spec (Token.ent_type t) ORG),
      (Z.eqb_spec (Token.ent_type t) GPE),
      (Z.eqb_spec (Token.ent_type t) DATE); simpl; try lia;
      exfalso; intuition congruence.
Qed.

(** X7.  A text whose tokens are all stop words or punctuation has an
    empty token string, whatever its counts, and the vectoriser turns the
    empty string into a row of zeros: such a review reaches the classifier
    with its eight numeric cells only.  A text with no token at all has
    the days it came with and seven zero counts.  Nothing is raised. *)
Theorem text_of_stop_words_has_no_ngram {lib : TfidfLibrary}
    (v : TfidfVectorizer.t) (text : string) (days : Z) :
  Forall (fun token => Token.is_stop token || Token.is_punct token = true)
    (nlp text) ->
  exists row,
    DataFrame_row (preprocess text days) = Some row
    /\ Row.tokens row = EmptyString
    /\ transform_doc v (Row.tokens row)
       = repeat 0%Q (length (TfidfVectorizer.idf_ v))
    /\ (nlp text = [] -> Row.numeric row = Numeric.mk days 0 0 0 0 0 0 0).
Proof.
  intros Hstop. exists (feature_row text days).
  split; [apply DataFrame_row_preprocess|].
  assert (Row.tokens (feature_row text days) = EmptyString) as Htokens.
  { unfold feature_row, cleaned. cbn [Row.tokens].
    assert (List.filter keep (nlp text) = []) as ->; [|done].
    induction Hstop as [|token doc Htoken _ IH]; simpl; [done|].
    unfold keep at 1.
    destruct (Token.is_stop token), (Token.is_punct token); done. }
  split; [exact Htokens|]. split.
  - rewrite Htokens. apply transform_doc_out_of_vocabulary.
    intros feature [].
  - intros Hdoc. unfold feature_row. rewrite Hdoc. reflexivity.
Qed.

(** X8.  Whatever order the pool finishes the tasks in, the list of
    collected results holds the feature list of every record exactly once:
    it is a rearrangement of the results in submission order, one per
    pair of a text and its days. *)
Theorem processed_texts_keep_every_result texts days_since_review
    completion_order :
  is_completion_order completion_order
    (length (future_results texts days_since_review)) ->
  Permutation
    (as_completed completion_order (future_results texts days_since_review))
    (zip_with preprocess texts days_since_review)
  /\ length (as_completed completion_order
               (future_results texts days_since_review))
     = Nat.min (length texts) (length days_since_review).
Proof.
  intros Horder.
  assert (future_results texts days_since_review
          = zip_with preprocess texts days_since_review) as Hfr.
  { unfold future_results. clear Horder. revert days_since_review.
    induction texts as [|t ts IH]; intros [|d ds]; simpl; try done.
    by rewrite IH. }
  pose proof (as_completed_Permutation _ _ Horder) as Hperm.
  split; [by rewrite <- Hfr|].
  rewrite (Permutation_length Hperm), Hfr. apply length_zip_with.
Qed.

End ExtractorBounds.

Lemma preprocess_counts_bounded_witness :
  distinct_symbols lexicon_spacy
  /\ exists row,
       DataFrame_row (@preprocess lexicon_spacy "Bruce dies in Gotham ." 9)
       = Some row
       /\ Numeric.NOUN_count (Row.numeric row)
          + Numeric.VERB_count (Row.numeric row)
          + Numeric.ADJ_count (Row.numeric row) <= 5.
Proof.
  assert (distinct_symbols lexicon_spacy) as Hd.
  { repeat split; try discriminate. apply NoDup_ListNoDup.
    repeat constructor; simpl; intros H;
      repeat destruct H as [H|H]; discriminate H || done. }
  split; [exact Hd|].
  destruct (@preprocess_counts_bounded lexicon_spacy
              "Bruce dies in Gotham ." 9 Hd) as (row & Hrow & _ & _ & Hpos & _).
  exists row. split; [exact Hrow | exact Hpos].
Defined.

Lemma text_of_stop_words_has_no_ngram_witness :
  Forall (fun token => Token.is_stop token || Token.is_punct token = true)
    (@nlp lexicon_spacy "the first part is a .")
  /\ exists row,
       DataFrame_row (@preprocess lexicon_spacy "the first part is a ." 4)
       = Some row
       /\ Row.numeric row = Numeric.mk 4 1 0 1 0 0 0 0
       /\ Row.tokens row = EmptyString
       /\ @transform_doc first_seen_library
            (TfidfVectorizer.mk ∅ [1; 1; 1]%Q) (Row.tokens row)
          = [0; 0; 0]%Q.
Proof.
  assert (Forall (fun token =>
                    Token.is_stop token || Token.is_punct token = true)
            (@nlp lexicon_spacy "the first part is a .")) as Hstop
    by (repeat constructor).
  split; [exact Hstop|].
  destruct (@text_of_stop_words_has_no_ngram lexicon_spacy first_seen_library
              (TfidfVectorizer.mk ∅ [1; 1; 1]%Q) "the first part is a ." 4
              Hstop) as (row & Hrow & Htokens & Hzeros & _).
  exists row. split; [exact Hrow|].
  split; [|split; [exact Htokens | exact Hzeros]].
  vm_compute in Hrow. by injection Hrow as <-.
Defined.

Lemma processed_texts_keep_every_result_witness :
  is_completion_order example_completion_order 10
  /\ length (as_completed example_completion_order
               (@future_results lexicon_spacy
                  (map Subset.review_combined example_csv)
                  (map Subset.days_since_release example_csv)))
     = 10%nat.
Proof.
  assert (is_completion_order example_completion_order 10) as Horder
    by apply perm_swap.
  split; [exact Horder|].
  destruct (@processed_texts_keep_every_result lexicon_spacy
              (map Subset.review_combined example_csv)
              (map Subset.days_since_release example_csv)
              example_completion_order Horder) as [_ ->].
  reflexivity.
Defined.

(** * Further facts about stage 3 *)

(** ** The table does not depend on the order of completion, up to the
       order of its rows *)

Section ScalerPermutation.
Import MinMaxScaler.

Lemma fold_Qmin_In (xs : list Q) (x : Q) : In (fold_left Qmin xs x) (x :: xs).
Proof.
  revert x. induction xs as [|a xs IH]; intros x; simpl; [by left|].
  destruct (IH (Qmin x a)) as [H|H]; [|right; by right].
  rewrite <- H. unfold Qmin, GenericMinMax.gmin.
  destruct (x ?= a)%Q; [by left | by left | right; by left].
Qed.

Lemma fold_Qmax_In (xs : list Q) (x : Q) : In (fold_left Qmax xs x) (x :: xs).
Proof.
  revert x. induction xs as [|a xs IH]; intros x; simpl; [by left|].
  destruct (IH (Qmax x a)) as [H|H]; [|right; by right].
  rewrite <- H. unfold Qmax, GenericMinMax.gmax.
  destruct (x ?= a)%Q; [by left | right; by left | by left].
Qed.

Lemma nanmin_Permutation (zs zs' : list Z) :
  Permutation zs zs' ->
  nanmin (List.map inject_Z zs) = nanmin (List.map inject_Z zs').
Proof.
  intros Hperm.
  destruct zs as [|z zs]; [by apply Permutation_nil in Hperm as ->|].
  destruct zs' as [|z' zs'];
    [by apply Permutation_sym, Permutation_nil in Hperm|].
  pose proof (fold_Qmin_In (List.map inject_Z zs) (inject_Z z)) as Hin.
  pose proof (fold_Qmin_In (List.map inject_Z zs') (inject_Z z')) as Hin'.
  change (In (nanmin (List.map inject_Z (z :: zs)))
             (List.map inject_Z (z :: zs))) in Hin.
  change (In (nanmin (List.map inject_Z (z' :: zs')))
             (List.map inject_Z (z' :: zs'))) in Hin'.
  pose proof Hin as Hm. pose proof Hin' as Hm'.
  apply in_map_iff in Hm as (m & Hm & Hmin).
  apply in_map_iff in Hm' as (m' & Hm' & Hmin').
  assert (In (inject_Z m) (List.map inject_Z (z' :: zs'))) as H1.
  { apply in_map. eapply Permutation_in; [exact Hperm | done]. }
  assert (In (inject_Z m') (List.map inject_Z (z :: zs))) as H2.
  { apply in_map. eapply Permutation_in; [symmetry; exact Hperm | done]. }
  apply nanmin_le in H1, H2. rewrite <- Hm, <- Hm' in *.
  rewrite <- Zle_Qle in H1, H2. f_equal. lia.
Qed.

Lemma nanmax_Permutation (zs zs' : list Z) :
  Permutation zs zs' ->
  nanmax (List.map inject_Z zs) = nanmax (List.map inject_Z zs').
Proof.
  intros Hperm.
  destruct zs as [|z zs]; [by apply Permutation_nil in Hperm as ->|].
  destruct zs' as [|z' zs'];
    [by apply Permutation_sym, Permutation_nil in Hperm|].
  pose proof (fold_Qmax_In (List.map inject_Z zs) (inject_Z z)) as Hin.
  pose proof (fold_Qmax_In (List.map inject_Z zs') (inject_Z z')) as Hin'.
  change (In (nanmax (List.map inject_Z (z :: zs)))
             (List.map inject_Z (z :: zs))) in Hin.
  change (In (nanmax (List.map inject_Z (z' :: zs')))
             (List.map inject_Z (z' :: zs'))) in Hin'.
  pose proof Hin as Hm. pose proof Hin' as Hm'.
  apply in_map_iff in Hm as (m & Hm & Hmax).
  apply in_map_iff in Hm' as (m' & Hm' & Hmax').
  assert (In (inject_Z m) (List.map inject_Z (z' :: zs'))) as H1.
  { apply in_map. eapply Permutation_in; [exact Hperm | done]. }
  assert (In (inject_Z m') (List.map inject_Z (z :: zs))) as H2.
  { apply in_map. eapply Permutation_in; [symmetry; exact Hperm | done]. }
  apply nanmax_ge in H1, H2. rewrite <- Hm, <- Hm' in *.
  rewrite <- Zle_Qle in H1, H2. f_equal. lia.
Qed.

Lemma fit_column_Permutation (c : Numeric.column) (df df' : list (Row.t Z)) :
  Permutation df df' ->
  fit_column (float_column c df) = fit_column (float_column c df').
Proof.
  intros Hperm.
  assert (forall d, float_column c d
                    = List.map inject_Z
                        (List.map (fun row => c Z (Row.numeric row)) d)) as E.
  { intros d. unfold float_column. by rewrite map_map. }
  rewrite !E. unfold fit_column.
  rewrite (nanmin_Permutation _ _ (Permutation_map _ Hperm)).
  rewrite (nanmax_Permutation _ _ (Permutation_map _ Hperm)).
  reflexivity.
Qed.

Lemma fit_Permutation (df df' : list (Row.t Z)) :
  Permutation df df' ->
  fit (numeric_columns df) = fit (numeric_columns df').
Proof.
  intros Hperm.
  destruct df as [|row df]; [by apply Permutation_nil in Hperm as ->|].
  destruct df' as [|row' df'];
    [by apply Permutation_sym, Permutation_nil in Hperm|].
  unfold fit. change (numeric_columns (?r :: ?d))
    with (Numeric.map inject_Z (Row.numeric r) :: numeric_columns d).
  cbv iota. f_equal.
  change (Numeric.map inject_Z (Row.numeric row) :: numeric_columns df)
    with (numeric_columns (row :: df)).
  change (Numeric.map inject_Z (Row.numeric row') :: numeric_columns df')
    with (numeric_columns (row' :: df')).
  unfold Numeric.tabulate.
  rewrite !column_numeric_columns by (unfold Numeric.columns; simpl; tauto).
  f_equal; by apply fit_column_Permutation.
Qed.

Lemma scaled_table_scale_row processed_texts df :
  DataFrame processed_texts = Some df -> df <> [] ->
  exists s,
    fit (numeric_columns df) = Some s
    /\ scaled_table processed_texts = Some (List.map (scale_row s) df).
Proof.
  intros Hdf Hne. unfold scaled_table, fit_transform. rewrite Hdf. simpl.
  destruct (fit (numeric_columns df)) as [s|] eqn:Hfit.
  - exists s. split; [done|]. simpl. f_equal.
    unfold assign_columns, transform, numeric_columns, scale_row.
    clear. induction df as [|row df IH]; simpl; [done|]. by rewrite IH.
  - destruct df; [done | discriminate].
Qed.

End ScalerPermutation.

Lemma mapM_Permutation {A B} (f : A -> option B) (l l' : list A) (k : list B) :
  Permutation l l' -> mapM f l = Some k ->
  exists k', mapM f l' = Some k' /\ Permutation k k'.
Proof.
  intros Hperm. revert k.
  induction Hperm as [|x l l' _ IH|x y l|l l' l'' _ IH1 _ IH2]; intros k Hk.
  - exists k. by split.
  - apply mapM_Some in Hk. inversion Hk as [|? b ? k0 Hx Hl]; subst.
    apply mapM_Some in Hl. destruct (IH _ Hl) as (k' & Hk' & Hp).
    exists (b :: k'). split; [|by constructor].
    apply mapM_Some. constructor; [done | by apply mapM_Some].
  - apply mapM_Some in Hk. inversion Hk as [|? b ? k0 Hy Hl]; subst.
    inversion Hl as [|? b' ? k1 Hx Hl']; subst.
    exists (b' :: b :: k1). split; [|by constructor].
    apply mapM_Some. by repeat constructor.
  - destruct (IH1 _ Hk) as (k' & Hk' & Hp).
    destruct (IH2 _ Hk') as (k'' & Hk'' & Hp').
    exists k''. split; [done | by etrans].
Qed.

Section TableOrder.
Context {sp : Spacy}.

Lemma DataFrame_future_results texts days_since_review :
  DataFrame (future_results texts days_since_review)
  = Some (zip_with feature_row texts days_since_review).
Proof.
  unfold DataFrame, future_results.
  revert days_since_review.
  induction texts as [|text texts IH]; intros [|days days_since_review];
    try done.
  cbn [zip zip_with List.map].
  change (mapM ?f (?x :: ?l)) with (y ← f x; k ← mapM f l; Some (y :: k)).
  by rewrite DataFrame_row_preprocess, IH.
Qed.

Lemma cell5_columns_length (csv : list Subset.t) :
  let df := take 2000 csv in
  length (future_results (List.map Subset.review_combined df)
            (List.map Subset.days_since_release df))
  = Nat.min 2000 (length csv)
  /\ length (zip_with feature_row (List.map Subset.review_combined df)
               (List.map Subset.days_since_release df))
     = Nat.min 2000 (length csv).
Proof.
  intros df. unfold future_results.
  rewrite length_map, length_zip, length_zip_with, !length_map.
  unfold df. rewrite length_take. lia.
Qed.

(** The table of cell 5 for a completion order, and the table in
    submission order it is a rearrangement of. *)
Lemma cell5_table (csv : list Subset.t) (completion_order : list nat) :
  let df := take 2000 csv in
  csv <> [] ->
  is_completion_order completion_order (Nat.min 2000 (length csv)) ->
  exists table s,
    Permutation table
      (zip_with feature_row (List.map Subset.review_combined df)
         (List.map Subset.days_since_release df))
    /\ MinMaxScaler.fit
         (numeric_columns
            (zip_with feature_row (List.map Subset.review_combined df)
               (List.map Subset.days_since_release df))) = Some s
    /\ cell5 csv completion_order
       = Some (List.map (scale_row s) table, List.map Subset.is_spoiler df).
Proof.
  intros df Hne Horder.
  destruct (cell5_columns_length csv) as [Hlen Hlen']. fold df in Hlen, Hlen'.
  set (texts := List.map Subset.review_combined df) in *.
  set (days_since_review := List.map Subset.days_since_release df) in *.
  rewrite <- Hlen in Horder.
  pose proof (as_completed_Permutation _ _ Horder) as Hperm.
  destruct (mapM_Permutation DataFrame_row _ _ _ (Permutation_sym Hperm)
              (DataFrame_future_results texts days_since_review))
    as (table & Htable & Hptable).
  assert (table <> []) as Htne.
  { intros ->. apply Permutation_length in Hptable. simpl in Hptable.
    rewrite Hlen' in Hptable. destruct csv; [done | simpl in Hptable; lia]. }
  destruct (scaled_table_scale_row _ _ Htable Htne) as (s & Hs & Hrun).
  exists table, s. split; [by symmetry|]. split.
  - by rewrite (fit_Permutation _ _ Hptable).
  - unfold cell5. fold df texts days_since_review. by rewrite Hrun.
Qed.

(** X10.  Cell 5 raises on an empty file (the scaler cannot be fitted on a
    table without rows).  On a file with records
    it returns one scaled row and one label per record read, at most
    2000 of each, the labels in the order of the file. *)
Theorem cell5_returns_a_row_per_record (csv : list Subset.t)
    (completion_order : list nat) :
  is_completion_order completion_order (Nat.min 2000 (length csv)) ->
  match csv with
  | [] => cell5 csv completion_order = None
  | _ =>
      exists X y,
        cell5 csv completion_order = Some (X, y)
        /\ y = List.map Subset.is_spoiler (take 2000 csv)
        /\ length X = Nat.min 2000 (length csv)
        /\ length y = Nat.min 2000 (length csv)
  end.
Proof.
  intros Horder. destruct csv as [|r rest] eqn:E.
  - unfold is_completion_order in Horder.
    rewrite Nat.min_0_r in Horder.
    apply Permutation_sym, Permutation_nil in Horder as ->. reflexivity.
  - rewrite <- E in *.
    destruct (cell5_table csv completion_order) as (table & s & Hp & _ & Hrun);
      [by subst | done |].
    eexists _, _. split; [exact Hrun|]. split; [done|].
    destruct (cell5_columns_length csv) as [_ Hlen].
    rewrite !length_map, length_take. apply Permutation_length in Hp.
    rewrite Hp, Hlen. lia.
Qed.

(** X11.  The order in which the pool finishes the tasks changes the order
    of the rows of the scaled table and nothing else: for two completion
    orders the tables of cell 5 hold the same rows with the same scaled
    cells (the fitted scaler is the same), while the list of labels is
    the same list, in the order of the file. *)
Theorem completion_order_only_reorders_the_rows (csv : list Subset.t)
    (order_1 order_2 : list nat) :
  csv <> [] ->
  is_completion_order order_1 (Nat.min 2000 (length csv)) ->
  is_completion_order order_2 (Nat.min 2000 (length csv)) ->
  exists X_1 X_2 y,
    cell5 csv order_1 = Some (X_1, y)
    /\ cell5 csv order_2 = Some (X_2, y)
    /\ Permutation X_1 X_2.
Proof.
  intros Hne H1 H2.
  destruct (cell5_table csv order_1 Hne H1) as (t1 & s1 & Hp1 & Hs1 & Hrun1).
  destruct (cell5_table csv order_2 Hne H2) as (t2 & s2 & Hp2 & Hs2 & Hrun2).
  assert (s1 = s2) as <- by congruence.
  eexists _, _, _. split; [exact Hrun1|]. split; [exact Hrun2|].
  apply Permutation_map. by rewrite Hp1, Hp2.
Qed.

End TableOrder.

Lemma cell5_returns_a_row_per_record_witness :
  exists X y,
    @cell5 lexicon_spacy example_csv example_completion_order = Some (X, y)
    /\ y = List.map Subset.is_spoiler (take 2000 example_csv)
    /\ length X = 10%nat /\ length y = 10%nat.
Proof.
  apply (@cell5_returns_a_row_per_record lexicon_spacy example_csv
           example_completion_order).
  unfold is_completion_order. simpl.
  unfold example_completion_order. apply perm_swap.
Defined.

Lemma completion_order_only_reorders_the_rows_witness :
  exists X_1 X_2 y,
    @cell5 lexicon_spacy example_csv example_completion_order = Some (X_1, y)
    /\ @cell5 lexicon_spacy example_csv (seq 0 10) = Some (X_2, y)
    /\ Permutation X_1 X_2.
Proof.
  apply (@completion_order_only_reorders_the_rows lexicon_spacy example_csv
           example_completion_order (seq 0 10)).
  - discriminate.
  - unfold is_completion_order. simpl.
    unfold example_completion_order. apply perm_swap.
  - unfold is_completion_order. simpl. reflexivity.
Defined.

(** * Further facts about stage 4a *)

Lemma class_indices_NoDup (y : list bool) (c : bool) :
  NoDup (class_indices y c).
Proof.
  unfold class_indices.
  assert (forall (l : list (nat * bool)) (f : nat * bool -> bool),
            NoDup (List.map fst l) -> NoDup (List.map fst (List.filter f l)))
    as Hfilter.
  { intros l f. induction l as [|x l IH]; simpl; [done|].
    rewrite NoDup_cons. intros [Hx Hl]. destruct (f x); simpl; [|auto].
    apply NoDup_cons. split; [|auto]. intros Hin. apply Hx.
    apply list_elem_of_In in Hin. apply list_elem_of_In.
    apply in_map_iff in Hin as (z & Hz & Hin). apply filter_In in Hin as [Hin _].
    apply in_map_iff. by exists z. }
  apply Hfilter.
  assert (forall (l : list nat) (k : list bool), NoDup l ->
            NoDup (List.map fst (zip l k))) as Hzip.
  { intros l. induction l as [|i l IH]; intros [|b k]; simpl;
      try (intros; constructor).
    - rewrite NoDup_cons in H. intros Hin. apply (proj1 H).
      apply list_elem_of_In in Hin. apply in_map_iff in Hin as ([j b'] & <- & Hin).
      apply list_elem_of_In in Hin. by apply elem_of_zip_l in Hin.
    - apply IH. rewrite NoDup_cons in H. tauto. }
  apply Hzip, NoDup_seq.
Qed.

Lemma take_clip_Permutation (a p : list nat) :
  Permutation p (seq 0 (length a)) -> Permutation (take_clip a p) a.
Proof.
  intros Hp. unfold take_clip. rewrite (Permutation_map _ Hp). clear Hp.
  assert (forall pre, List.map (fun j => nth (Nat.min j (length (pre ++ a) - 1))
                                          (pre ++ a) 0%nat)
                        (seq (length pre) (length a)) = a) as H.
  { induction a as [|x a IH]; intros pre; simpl; [done|]. f_equal.
    - rewrite Nat.min_l by (rewrite length_app; simpl; lia).
      by rewrite app_nth2, Nat.sub_diag by lia.
    - specialize (IH (pre ++ [x])).
      rewrite <- app_assoc in IH. cbn [app] in IH.
      replace (length (pre ++ [x])) with (S (length pre)) in IH
        by (rewrite length_app; simpl; lia).
      exact IH. }
  specialize (H []). simpl in H. by rewrite H.
Qed.

Section SplitDisjoint.
Context {rs : RandomState}.

(** The positions drawn for the two partitions are distinct positions of
    the classes of the blocks, whatever the numbers to draw. *)
Lemma draw_classes_NoDup (y : list bool) (classes : list bool)
    (n_i t_i : list Z) (s : rng) :
  permutes rs -> NoDup classes ->
  let drawn :=
    fst (draw_classes
           (zip (zip (List.map (class_indices y) classes) n_i) t_i) s) in
  NoDup (fst drawn ++ snd drawn)
  /\ Forall (fun i => exists c, In c classes /\ y !! i = Some c)
       (fst drawn ++ snd drawn).
Proof.
  intros Hrng. revert n_i t_i s.
  induction classes as [|c classes IH]; intros n_i t_i s Hnd.
  { simpl. split; constructor. }
  destruct n_i as [|n n_i]; [simpl; split; constructor|].
  destruct t_i as [|t t_i]; [simpl; split; constructor|].
  apply NoDup_cons in Hnd as [Hc Hnd].
  cbn [List.map zip zip_with draw_classes]. unfold bind, ret.
  pose proof (Hrng (seq 0 (length (class_indices y c))) s) as Hp.
  destruct (permutation (seq 0 (length (class_indices y c))) s) as [p s1].
  simpl in Hp.
  specialize (IH n_i t_i s1 Hnd). cbv zeta in IH.
  fold (zip (List.map (class_indices y) classes) n_i).
  fold (zip (zip (List.map (class_indices y) classes) n_i) t_i).
  destruct (draw_classes
              (zip (zip (List.map (class_indices y) classes) n_i) t_i) s1)
    as [[tr te] s2].
  cbn [fst snd] in IH |- *. destruct IH as [IHnd IHin].
  set (q := take_clip (class_indices y c) p).
  assert (Permutation q (class_indices y c)) as Hq
    by by apply take_clip_Permutation.
  assert (Permutation ((take (Z.to_nat n) q ++ tr)
                       ++ take (Z.to_nat t) (drop (Z.to_nat n) q) ++ te)
            (take (Z.to_nat n + Z.to_nat t) q ++ tr ++ te)) as Hperm.
  { rewrite <- take_take_drop. rewrite <- !app_assoc.
    apply Permutation_app_head. rewrite !app_assoc.
    apply Permutation_app_tail, Permutation_app_comm. }
  assert (Forall (fun i => y !! i = Some c)
            (take (Z.to_nat n + Z.to_nat t) q)) as Hhead.
  { apply Forall_forall. intros i Hi. apply subseteq_take in Hi.
    apply class_indices_spec, list_elem_of_In. by rewrite <- Hq. }
  split.
  - rewrite Hperm. apply NoDup_app. split; [|split; [|done]].
    + apply (sublist_NoDup _ q); [|apply sublist_take].
      rewrite Hq. apply class_indices_NoDup.
    + intros i Hi Hi'.
      rewrite Forall_forall in Hhead, IHin.
      destruct (IHin i Hi') as (c' & Hc' & Hy').
      rewrite (Hhead i Hi) in Hy'. injection Hy' as <-.
      by apply Hc, list_elem_of_In.
  - rewrite Hperm. apply Forall_app. split.
    + eapply Forall_impl; [exact Hhead|]. intros i Hi. exists c.
      split; [by left | done].
    + eapply Forall_impl; [exact IHin|]. intros i (c' & Hc' & Hi).
      exists c'. split; [by right | done].
Qed.

Lemma unique_NoDup (y : list bool) : NoDup (unique y).
Proof.
  unfold unique. simpl.
  destruct (existsb (Bool.eqb false) y), (existsb (Bool.eqb true) y);
    simpl; try apply NoDup_nil_2; try apply NoDup_singleton.
  apply NoDup_cons. split; [|apply NoDup_singleton].
  by intros ?%list_elem_of_singleton.
Qed.

(** The train and the test positions of the stratified split are distinct
    positions of [y]. *)
Lemma stratified_shuffle_split_NoDup (y : list bool) n_train n_test
    random_state train test :
  permutes rs ->
  stratified_shuffle_split y n_train n_test random_state = Some (train, test) ->
  NoDup (train ++ test)
  /\ Forall (fun i => (i < length y)%nat) (train ++ test).
Proof.
  intros Hrng. unfold stratified_shuffle_split.
  destruct (existsb _ _); [done|].
  destruct (n_train <? _); [done|]. destruct (n_test <? _); [done|].
  intros Hrun. apply (inj Some) in Hrun. unfold bind, ret in Hrun.
  destruct (approximate_mode _ n_train _) as [n_i s1].
  destruct (approximate_mode _ n_test _) as [t_i s2].
  pose proof (draw_classes_NoDup y (unique y) n_i t_i s2 Hrng (unique_NoDup y))
    as Hdrawn. cbv zeta in Hdrawn.
  destruct (draw_classes _ s2) as [[tr te] s3]. cbn [fst snd] in Hdrawn, Hrun.
  pose proof (Hrng tr s3) as Htr.
  destruct (permutation tr s3) as [train' s4].
  pose proof (Hrng te s4) as Hte.
  destruct (permutation te s4) as [test' s5].
  cbn [fst snd] in Hrun, Htr, Hte. injection Hrun as <- <-.
  destruct Hdrawn as [Hnd Hin]. rewrite Htr, Hte. split; [done|].
  eapply Forall_impl; [exact Hin|]. intros i (c & _ & Hi).
  by eapply lookup_lt_Some.
Qed.

(** X12.  With a generator that returns permutations, the split never
    uses a row twice: the rows of [X_train] and [X_test] are the rows of
    [X] at positions that are all distinct and all within the table, so
    that no row is both a training and a test row, and each label of
    [y_train] and [y_test] is the label at the position of its row. *)
Theorem train_test_split_uses_no_row_twice {A} (X : list A) (y : list bool)
    test_size random_state X_train X_test y_train y_test :
  permutes rs ->
  train_test_split X y test_size random_state
  = Some (X_train, X_test, y_train, y_test) ->
  exists train test,
    NoDup (train ++ test)
    /\ Forall (fun i => (i < length X)%nat) (train ++ test)
    /\ length X = length y
    /\ Forall2 (fun i x => X !! i = Some x) train X_train
    /\ Forall2 (fun i b => y !! i = Some b) train y_train
    /\ Forall2 (fun i x => X !! i = Some x) test X_test
    /\ Forall2 (fun i b => y !! i = Some b) test y_test.
Proof.
  intros Hrng. unfold train_test_split.
  destruct (length X =? length y)%nat eqn:Hlen; [|done].
  apply Nat.eqb_eq in Hlen. cbn [negb].
  destruct (validate_shuffle_split _ _) as [[n_train n_test]|]; [|done].
  simpl.
  destruct (stratified_shuffle_split _ _ _ _) as [[train test]|] eqn:Hsplit;
    [|done].
  simpl. unfold safe_indexing.
  destruct (mapM (fun i => X !! i) train) as [a|] eqn:Ha; simpl; [|done].
  destruct (mapM (fun i => X !! i) test) as [b|] eqn:Hb; simpl; [|done].
  destruct (mapM (fun i => y !! i) train) as [c|] eqn:Hc; simpl; [|done].
  destruct (mapM (fun i => y !! i) test) as [d|] eqn:Hd; simpl; [|done].
  intros Hrun. injection Hrun as <- <- <- <-.
  destruct (stratified_shuffle_split_NoDup _ _ _ _ _ _ Hrng Hsplit)
    as [Hnd Hin].
  exists train, test. rewrite Hlen. rewrite <- !mapM_Some. done.
Qed.

Lemma single_member_class (y : list bool) :
  existsb (fun c => c <? 2)
    (List.map (fun l => Z.of_nat (length l))
       (List.map (class_indices y) (unique y))) = true
  <-> exists c, count_label c y = 1%nat.
Proof.
  assert (forall c, In c (unique y) <-> (0 < count_label c y)%nat) as Hunique.
  { intros c. unfold unique. rewrite filter_In, existsb_exists.
    unfold count_label. split.
    - intros [_ (b & Hb & Hcb)].
      assert (In b (List.filter (Bool.eqb c) y)) as Hin
        by (apply filter_In; by split).
      destruct (List.filter (Bool.eqb c) y); [done | simpl; lia].
    - intros Hpos. split; [destruct c; simpl; tauto|].
      destruct (List.filter (Bool.eqb c) y) as [|b l] eqn:E; [simpl in Hpos; lia|].
      assert (In b (List.filter (Bool.eqb c) y)) as Hb by (rewrite E; by left).
      apply filter_In in Hb. by exists b. }
  rewrite existsb_exists. split.
  - intros (n & Hn & Hlt). apply in_map_iff in Hn as (l & <- & Hl).
    apply in_map_iff in Hl as (c & <- & Hc). apply Hunique in Hc.
    rewrite class_indices_length in Hlt. apply Z.ltb_lt in Hlt.
    exists c. lia.
  - intros [c Hc]. exists 1. split; [|done].
    apply in_map_iff. exists (class_indices y c). split.
    + by rewrite class_indices_length, Hc.
    + apply in_map, Hunique. lia.
Qed.

(** X13.  What makes the split raise.  With a generator that returns
    permutations, [train_test_split] with [stratify=y] returns its four
    parts exactly when [X] and [y] have the same length, the sizes of the
    two partitions are valid, no class has a single member, and each
    partition has room for a row of every class.  Otherwise it raises. *)
Theorem train_test_split_raises_exactly {A} (X : list A) (y : list bool)
    test_size random_state :
  permutes rs ->
  (is_Some (train_test_split X y test_size random_state)
   <-> length X = length y
       /\ (forall c, count_label c y <> 1%nat)
       /\ exists n_train n_test,
            validate_shuffle_split (length X) test_size
            = Some (n_train, n_test)
            /\ Z.of_nat (length (unique y)) <= n_train
            /\ Z.of_nat (length (unique y)) <= n_test).
Proof.
  intros Hrng. unfold train_test_split.
  destruct (Nat.eqb_spec (length X) (length y)) as [Hlen|Hlen]; cbn [negb];
    [|split; [by intros [? [=]] | tauto]].
  destruct (validate_shuffle_split (length X) test_size)
    as [[n_train n_test]|];
    [|split; [by intros [? [=]] | by intros (_ & _ & ? & ? & [=] & _)]].
  cbn [mbind option_bind].
  destruct (stratified_shuffle_split y n_train n_test random_state)
    as [[train test]|] eqn:Hsplit.
  - pose proof Hsplit as Hchecks. unfold stratified_shuffle_split in Hchecks.
    destruct (existsb _ _) eqn:Hsingle; [done|].
    destruct (Z.ltb_spec n_train (Z.of_nat (length (unique y)))); [done|].
    destruct (Z.ltb_spec n_test (Z.of_nat (length (unique y)))); [done|].
    clear Hchecks.
    destruct (stratified_shuffle_split_NoDup _ _ _ _ _ _ Hrng Hsplit)
      as [_ Hin].
    apply Forall_app in Hin as [Htrain Htest].
    destruct (safe_indexing_Some y train Htrain) as (c & Hc & _).
    destruct (safe_indexing_Some y test Htest) as (d & Hd & _).
    rewrite <- Hlen in Htrain, Htest.
    destruct (safe_indexing_Some X train Htrain) as (a & Ha & _).
    destruct (safe_indexing_Some X test Htest) as (b & Hb & _).
    cbn [mbind option_bind]. cbv beta iota. rewrite Ha. cbn [mbind option_bind].
    rewrite Hb. cbn [mbind option_bind]. rewrite Hc. cbn [mbind option_bind].
    rewrite Hd. cbn [mbind option_bind].
    split; [|by eexists]. intros _. split; [done|]. split.
    + intros cl Hcl.
      assert (existsb (fun c => c <? 2)
                (List.map (fun l => Z.of_nat (length l))
                   (List.map (class_indices y) (unique y))) = true) as E
        by (apply single_member_class; by exists cl).
      congruence.
    + by exists n_train, n_test.
  - simpl. split; [by intros [? [=]]|].
    intros (_ & Hno & n1 & n2 & [= <- <-] & Htr & Hte). exfalso.
    unfold stratified_shuffle_split in Hsplit.
    destruct (existsb _ _) eqn:Hsingle.
    + apply single_member_class in Hsingle as [c Hc]. by apply (Hno c).
    + destruct (Z.ltb_spec n_train (Z.of_nat (length (unique y)))); [lia|].
      destruct (Z.ltb_spec n_test (Z.of_nat (length (unique y)))); [lia|].
      done.
Qed.

End SplitDisjoint.

Lemma train_test_split_uses_no_row_twice_witness :
  permutes reversing_rng
  /\ exists X_train X_test y_train y_test train test,
       @train_test_split reversing_rng nat (seq 0 10)
         (List.map Subset.is_spoiler example_csv) 0.2%float 42
       = Some (X_train, X_test, y_train, y_test)
       /\ NoDup (train ++ test)
       /\ Forall2 (fun i x => seq 0 10 !! i = Some x) train X_train
       /\ Forall2 (fun i x => seq 0 10 !! i = Some x) test X_test.
Proof.
  assert (permutes reversing_rng) as Hrng.
  { intros l s. simpl. symmetry. apply Permutation_rev. }
  split; [exact Hrng|].
  destruct (@train_test_split reversing_rng nat (seq 0 10)
              (List.map Subset.is_spoiler example_csv) 0.2%float 42)
    as [[[[X_train X_test] y_train] y_test]|] eqn:Hrun;
    [|vm_compute in Hrun; discriminate Hrun].
  destruct (@train_test_split_uses_no_row_twice reversing_rng nat _ _ _ _
              _ _ _ _ Hrng Hrun)
    as (train & test & Hnd & _ & _ & Htrain & _ & Htest & _).
  exists X_train, X_test, y_train, y_test, train, test. tauto.
Defined.

Lemma train_test_split_raises_exactly_witness :
  permutes reversing_rng
  /\ @train_test_split reversing_rng nat (seq 0 10)
       ([true] ++ repeat false 9) 0.2%float 42 = None
  /\ is_Some (@train_test_split reversing_rng nat (seq 0 10)
                ([true; true] ++ repeat false 8) 0.2%float 42).
Proof.
  assert (permutes reversing_rng) as Hrng.
  { intros l s. simpl. symmetry. apply Permutation_rev. }
  split; [exact Hrng|]. split.
  - apply eq_None_not_Some. intros Hsome.
    apply (@train_test_split_raises_exactly reversing_rng nat) in Hsome
      as (_ & Hno & _); [|exact Hrng].
    by apply (Hno true).
  - apply (@train_test_split_raises_exactly reversing_rng nat); [exact Hrng|].
    split; [reflexivity|]. split.
    + intros [] [=].
    + exists 8, 2. split; [reflexivity|]. split; vm_compute; discriminate.
Defined.

(** The sizes of the two partitions, for every number of rows the
    notebook can reach ([df = df[:2000]]). *)
Lemma validate_shuffle_split_upto_2000 :
  forallb (fun n =>
             match validate_shuffle_split n 0.2 with
             | None => (n <=? 1)%nat
             | Some (n_train, n_test) =>
                 (1 <? n)%nat && (n_test =? (Z.of_nat n + 4) / 5)
                 && (n_train =? Z.of_nat n - n_test)
             end)
    (seq 0 2001) = true.
Proof. vm_compute. reflexivity. Qed.

(** X14.  For every table of at most 2000 rows, the size the notebook cuts
    the file to, [test_size=0.2] on binary64 numbers gives a test
    partition of a fifth of the rows, rounded up, and the rest for
    training; a table of fewer than two rows raises, as no row would be
    left for training. *)
Theorem split_sizes_up_to_2000 (n : nat) :
  (n <= 2000)%nat ->
  validate_shuffle_split n 0.2
  = if (n <=? 1)%nat then None
    else Some (Z.of_nat n - (Z.of_nat n + 4) / 5, (Z.of_nat n + 4) / 5).
Proof.
  intros Hn. pose proof validate_shuffle_split_upto_2000 as H.
  rewrite forallb_forall in H. specialize (H n).
  assert (In n (seq 0 2001)) as Hin by (apply in_seq; lia).
  specialize (H Hin).
  destruct (validate_shuffle_split n 0.2) as [[n_train n_test]|].
  - apply andb_prop in H as [H Htrain]. apply andb_prop in H as [Hlt Htest].
    apply Nat.ltb_lt in Hlt. apply Z.eqb_eq in Htest, Htrain.
    destruct (Nat.leb_spec n 1); [lia|]. by rewrite Htrain, Htest.
  - by rewrite H.
Qed.

Lemma split_sizes_up_to_2000_witness :
  validate_shuffle_split 1999 0.2 = Some (1599, 400).
Proof. apply (split_sizes_up_to_2000 1999). lia. Defined.

(** * Further facts about stage 4b *)


Lemma string_length_snoc (run : string) (c : ascii) :
  String.length (run ++ String c EmptyString) = S (String.length run).
Proof. induction run as [|a run IH]; simpl; [done | by rewrite IH]. Qed.











Section CountVocab.

Lemma count_vocab_fold (vocabulary : gmap string nat) (j : nat)
    (features : list string) (acc : gmap nat Q) (a : nat) :
  (default 0 (acc !! j) == inject_Z (Z.of_nat a))%Q ->
  (acc !! j = None <-> a = 0%nat) ->
  let counts :=
    foldl (fun (feature_counter : gmap nat Q) feature =>
             match vocabulary !! feature with
             | Some feature_idx =>
                 <[feature_idx :=
                     (default 0 (feature_counter !! feature_idx) + 1)%Q]>
                   feature_counter
             | None => feature_counter
             end) acc features in
  let n := (a + length (List.filter
                          (fun feature =>
                             bool_decide (vocabulary !! feature = Some j))
                          features))%nat in
  (default 0 (counts !! j) == inject_Z (Z.of_nat n))%Q
  /\ (counts !! j = None <-> n = 0%nat).
Proof.
  revert acc a. induction features as [|f features IH]; intros acc a Hq Hnone.
  - simpl. rewrite Nat.add_0_r. by split.
  - cbn [foldl List.filter].
    destruct (vocabulary !! f) as [k|] eqn:Hf.
    + destruct (decide (k = j)) as [->|Hk].
      * rewrite bool_decide_eq_true_2 by done. cbn [length].
        replace (a + S (length (List.filter
                   (fun feature => bool_decide (vocabulary !! feature = Some j))
                   features)))%nat
          with (S a + length (List.filter
                   (fun feature => bool_decide (vocabulary !! feature = Some j))
                   features))%nat by lia.
        apply IH.
        -- rewrite lookup_insert_eq. simpl. rewrite Hq.
           rewrite Nat2Z.inj_succ. unfold Z.succ. rewrite inject_Z_plus.
           reflexivity.
        -- rewrite lookup_insert_eq. split; [done | lia].
      * rewrite bool_decide_eq_false_2 by congruence.
        apply IH; by rewrite lookup_insert_ne.
    + rewrite bool_decide_eq_false_2 by congruence. by apply IH.
Qed.

(** X16.  The count row of a document stores, for a column of the
    vocabulary, the number of the document's features that the vocabulary
    sends to that column; features outside the vocabulary are skipped, and
    a column none of the features is sent to is not stored and is 0 in
    the transformed dense row: a document weighs only on n-grams it
    holds. *)
Theorem count_vocab_counts_the_features {lib : TfidfLibrary}
    (v : TfidfVectorizer.t) (doc : string) (j : nat) :
  let n :=
    length (List.filter
              (fun feature =>
                 bool_decide (TfidfVectorizer.vocabulary_ v !! feature = Some j))
              (analyze doc)) in
  (count_vocab v doc !! j = None <-> n = 0%nat)
  /\ (default 0 (count_vocab v doc !! j) == inject_Z (Z.of_nat n))%Q
  /\ (n = 0%nat ->
      transform_doc v doc !! j
      = if decide (j < length (TfidfVectorizer.idf_ v))%nat then Some 0%Q
        else None).
Proof.
  intros n. unfold count_vocab.
  destruct (count_vocab_fold (TfidfVectorizer.vocabulary_ v) j (analyze doc)
              ∅ 0%nat) as [Hq Hnone].
  - rewrite lookup_empty. reflexivity.
  - by rewrite lookup_empty.
  - simpl in Hq, Hnone. split; [done|]. split; [done|].
    intros Hn. apply Hnone in Hn.
    unfold transform_doc, toarray. fold (count_vocab v doc).
    unfold count_vocab. rewrite lookup_map.
    destruct (decide (j < length (TfidfVectorizer.idf_ v))%nat) as [Hj|Hj].
    + rewrite (proj2 (lookup_seq 0 _ j j) (conj eq_refl Hj)). simpl. f_equal.
      unfold normalize_l2, scale_by_idf.
      destruct (Qeq_bool _ 0).
      * by rewrite map_lookup_imap, Hn.
      * by rewrite lookup_fmap, map_lookup_imap, Hn.
    + rewrite lookup_seq_ge; [done | lia].
Qed.

End CountVocab.

Section Cell8Shapes.
Context {lib : TfidfLibrary}.

Lemma hstack_row (v : TfidfVectorizer.t) (X : list (Row.t Q)) (i : nat)
    (r : list Q) :
  hstack (List.map (transform_doc v) (List.map Row.tokens X)) (to_numpy X)
    !! i = Some r ->
  exists row,
    X !! i = Some row
    /\ r = (transform_doc v (Row.tokens row)
            ++ List.map (fun c : Numeric.column => c Q (Row.numeric row))
                 Numeric.columns)%list.
Proof.
  unfold hstack, to_numpy.
  rewrite lookup_zip_with, !lookup_map.
  destruct (X !! i) as [row|]; [|done]. simpl. intros [= <-]. by exists row.
Qed.

(** X17.  The matrices of cell 8 have one row per row of their partition,
    in the same order; every row of both has the fitted n-gram columns
    followed by eight more columns, and these last eight hold the scaled
    cells of the row unchanged, in the order of the table's columns. *)
Theorem cell8_shapes (X_train X_test : list (Row.t Q))
    X_train_combined X_test_combined :
  cell8 X_train X_test = Some (X_train_combined, X_test_combined) ->
  exists vectorizer,
    fit (List.map Row.tokens X_train) = Some vectorizer
    /\ length X_train_combined = length X_train
    /\ length X_test_combined = length X_test
    /\ (forall i r,
          X_train_combined !! i = Some r ->
          exists row,
            X_train !! i = Some row
            /\ length r = (length (TfidfVectorizer.idf_ vectorizer) + 8)%nat
            /\ drop (length (TfidfVectorizer.idf_ vectorizer)) r
               = List.map (fun c : Numeric.column => c Q (Row.numeric row))
                   Numeric.columns)
    /\ (forall i r,
          X_test_combined !! i = Some r ->
          exists row,
            X_test !! i = Some row
            /\ length r = (length (TfidfVectorizer.idf_ vectorizer) + 8)%nat
            /\ drop (length (TfidfVectorizer.idf_ vectorizer)) r
               = List.map (fun c : Numeric.column => c Q (Row.numeric row))
                   Numeric.columns).
Proof.
  intros Hrun.
  apply cell8_Some in Hrun as (v & Hfit & _ & _ & -> & ->).
  exists v. split; [done|].
  assert (forall X, length (hstack (List.map (transform_doc v)
                                      (List.map Row.tokens X))
                              (to_numpy X)) = length X) as Hlen.
  { intros X. unfold hstack, to_numpy.
    rewrite length_zip_with, !length_map. lia. }
  split; [apply Hlen|]. split; [apply Hlen|].
  assert (forall X i r,
            hstack (List.map (transform_doc v) (List.map Row.tokens X))
              (to_numpy X) !! i
            = Some r ->
            exists row,
              X !! i = Some row
              /\ length r = (length (TfidfVectorizer.idf_ v) + 8)%nat
              /\ drop (length (TfidfVectorizer.idf_ v)) r
                 = List.map (fun c : Numeric.column => c Q (Row.numeric row))
                     Numeric.columns) as Hrow.
  { intros X i r Hr. apply hstack_row in Hr as (row & Hx & ->).
    exists row. split; [done|]. split.
    - rewrite length_app, transform_doc_length. reflexivity.
    - rewrite <- (transform_doc_length v (Row.tokens row)).
      by rewrite drop_app_length. }
  split; apply Hrow.
Qed.

End Cell8Shapes.

Lemma cell8_shapes_witness :
  let X_train :=
    [ Row.mk (Numeric.mk 0 1 0 0 0 0 0 0) "killer butler";
      Row.mk (Numeric.mk 1 0 0 1 0 0 0 0) "great movie" ]%Q in
  let X_test := [ Row.mk (Numeric.mk (1 # 2) 0 0 0 0 0 0 0)%Q "great plot" ] in
  exists X_train_combined X_test_combined,
    @cell8 first_seen_library X_train X_test
    = Some (X_train_combined, X_test_combined)
    /\ length X_train_combined = 2%nat
    /\ length X_test_combined = 1%nat.
Proof.
  intros X_train X_test.
  destruct (@cell8 first_seen_library X_train X_test)
    as [[X_train_combined X_test_combined]|] eqn:Hrun;
    [|vm_compute in Hrun; discriminate Hrun].
  destruct (@cell8_shapes first_seen_library X_train X_test _ _ Hrun)
    as (v & _ & Htrain & Htest & _).
  by exists X_train_combined, X_test_combined.
Defined.

(** * Facts about the elapsed time *)

Lemma Qfloor_unique (x : Q) (n : Z) :
  (inject_Z n <= x < inject_Z (n + 1))%Q -> Qfloor x = n.
Proof.
  intros [Hle Hlt].
  pose proof (Qfloor_le x) as Hle'. pose proof (Qlt_floor x) as Hlt'.
  assert (inject_Z n < inject_Z (Qfloor x + 1))%Q as H1 by lra.
  assert (inject_Z (Qfloor x) < inject_Z (n + 1))%Q as H2 by lra.
  rewrite <- Zlt_Qlt in H1, H2. lia.
Qed.

Lemma divmod_bounds (x y : Q) :
  (0 < y)%Q ->
  (0 <= snd (divmod x y) < y)%Q
  /\ (x == inject_Z (Qfloor (x / y)) * y + snd (divmod x y))%Q
  /\ fst (divmod x y) = inject_Z (Qfloor (x / y)).
Proof.
  intros Hy. unfold divmod. cbn [fst snd].
  pose proof (Qfloor_le (x / y)) as Hle.
  pose proof (Qlt_floor (x / y)) as Hlt.
  assert (x == x / y * y)%Q as Hx by (field; lra).
  set (q := Qfloor (x / y)) in *.
  rewrite inject_Z_plus in Hlt. change (inject_Z 1) with 1%Q in Hlt.
  assert (inject_Z q * y <= x / y * y)%Q
    by (apply Qmult_le_compat_r; lra).
  assert (x / y * y < (inject_Z q + 1) * y)%Q
    by (apply Qmult_lt_compat_r; lra).
  split; [|split; [lra | done]]. split; lra.
Qed.

Lemma int_inject_Z (z : Z) : int (inject_Z z) = z.
Proof.
  unfold int. destruct (Qle_bool 0 (inject_Z z));
    [apply Qfloor_Z | apply Qceiling_Z].
Qed.

Lemma format_02d_upto_100 :
  forallb (fun n => String.length (format_02d (Z.of_nat n)) =? 2)%nat
    (seq 0 100) = true.
Proof. vm_compute. reflexivity. Qed.

Lemma format_02d_two_digits (n : Z) :
  0 <= n < 100 -> String.length (format_02d n) = 2%nat.
Proof.
  intros Hn. pose proof format_02d_upto_100 as H.
  rewrite forallb_forall in H. specialize (H (Z.to_nat n)).
  rewrite Z2Nat.id in H by lia. apply Nat.eqb_eq, H, in_seq. lia.
Qed.

(** X18.  The elapsed time of a step, when it is not negative, is printed
    as whole hours, minutes below 60 and seconds below 60 that add up to
    the elapsed time with its fraction of a second cut off; below a
    hundred hours the line has the fixed form [Elapsed time: HH:MM:SS]
    of 22 characters. *)
Theorem elapsed_time_fields (elapsed_time : Q) :
  (0 <= elapsed_time)%Q ->
  exists hours minutes seconds,
    elapsed_fields elapsed_time = (hours, minutes, seconds)
    /\ 0 <= hours /\ 0 <= minutes < 60 /\ 0 <= seconds < 60
    /\ 3600 * hours + 60 * minutes + seconds = Qfloor elapsed_time
    /\ ((elapsed_time < 360000)%Q ->
        String.length (elapsed_line elapsed_time) = 22%nat).
Proof.
  intros Hpos. unfold elapsed_line, elapsed_fields.
  destruct (divmod_bounds elapsed_time 3600 ltac:(reflexivity))
    as ([Hrem0 Hrem] & He & Hhours).
  destruct (divmod elapsed_time 3600) as [hours rem]. cbn [fst snd] in *.
  destruct (divmod_bounds rem 60 ltac:(reflexivity))
    as ([Hsec0 Hsec] & Hr & Hminutes).
  destruct (divmod rem 60) as [minutes seconds]. cbn [fst snd] in *.
  subst hours minutes. rewrite !int_inject_Z.
  set (h := Qfloor (elapsed_time / 3600)) in *.
  set (m := Qfloor (rem / 60)) in *.
  assert (int seconds = Qfloor seconds) as Hint.
  { unfold int. destruct (Qle_bool 0 seconds) eqn:E; [done|].
    apply Qle_bool_iff in Hsec0. congruence. }
  rewrite Hint.
  pose proof (Qfloor_le seconds) as Hfl. pose proof (Qlt_floor seconds) as Hfu.
  set (s := Qfloor seconds) in *.
  rewrite inject_Z_plus in Hfu. change (inject_Z 1) with 1%Q in Hfu.
  assert (0 <= s) as Hs0.
  { assert (inject_Z 0 < inject_Z (s + 1))%Q as H.
    { rewrite inject_Z_plus. change (inject_Z 0) with 0%Q.
      change (inject_Z 1) with 1%Q. lra. }
    rewrite <- Zlt_Qlt in H. lia. }
  assert (s < 60) as Hs60.
  { assert (inject_Z s < inject_Z 60)%Q as H
      by (change (inject_Z 60) with 60%Q; lra).
    by rewrite <- Zlt_Qlt in H. }
  assert (0 <= m < 60) as Hm.
  { assert (inject_Z 0 < inject_Z (m + 1))%Q as H1.
    { rewrite inject_Z_plus. change (inject_Z 0) with 0%Q.
      change (inject_Z 1) with 1%Q. lra. }
    assert (inject_Z m < inject_Z 60)%Q as H2
      by (change (inject_Z 60) with 60%Q; lra).
    rewrite <- Zlt_Qlt in H1, H2. lia. }
  assert (0 <= h) as Hh.
  { assert (inject_Z 0 < inject_Z (h + 1))%Q as H1.
    { rewrite inject_Z_plus. change (inject_Z 0) with 0%Q.
      change (inject_Z 1) with 1%Q. lra. }
    rewrite <- Zlt_Qlt in H1. lia. }
  exists h, m, s. split; [done|]. split; [done|]. split; [done|].
  split; [done|]. split.
  - symmetry. apply Qfloor_unique.
    rewrite !inject_Z_plus, !inject_Z_mult.
    change (inject_Z 3600) with 3600%Q. change (inject_Z 60) with 60%Q.
    change (inject_Z 1) with 1%Q. split; lra.
  - intros Hlt.
    assert (h < 100) as Hh100.
    { assert (inject_Z h < inject_Z 100)%Q as H1
        by (change (inject_Z 100) with 100%Q; lra).
      by rewrite <- Zlt_Qlt in H1. }
    rewrite !string_length_app.
    rewrite !format_02d_two_digits by lia. reflexivity.
Qed.

Lemma elapsed_time_fields_witness :
  (exists hours minutes seconds,
     elapsed_fields (2137 # 10) = (hours, minutes, seconds)
     /\ 0 <= hours /\ 0 <= minutes < 60 /\ 0 <= seconds < 60
     /\ 3600 * hours + 60 * minutes + seconds = Qfloor (2137 # 10)
     /\ ((2137 # 10 < 360000)%Q ->
         String.length (elapsed_line (2137 # 10)) = 22%nat))
  /\ elapsed_line (2137 # 10) = "Elapsed time: 00:03:33"%string.
Proof.
  split; [apply elapsed_time_fields; discriminate | reflexivity].
Defined.
